(** * Vita3K host: import dispatch, thread resume and shutdown

    A shallow embedding of [src/emulator/host/src/host.cpp]: the export
    lookup [resolve_export], the NID switch [resolve_import], the dispatcher
    [call_import], the [resume_thread] closure built in [init], and the event
    pump [handle_events]; further down, [init] itself with its scan of the
    application directory, and the glbinding hook [after_callback].

    The C++ code works on one shared [HostState] through references and
    emits effects whose order matters (mutex acquisition, condition-variable
    notification, calls into native functions).  It is modelled in a small
    monad that threads the machine state, records an ordered trace of
    effects, and can fault where the C++ would dereference a missing
    record. *)

From Stdlib Require Import ZArith String List.
From stdpp Require Import base gmap list.

Open Scope Z_scope.

(** ** Scalar types *)

(** [uint32_t] guest address, [SceUID] (a 32-bit signed id), and the
    identity of a heap-allocated [CPUState] (the target of
    [CPUStatePtr] and of a [CPUState &]). *)
Abbreviation Address := Z (only parsing).
Abbreviation SceUID := Z (only parsing).
Abbreviation CpuPtr := Z (only parsing).

(** [enum class ThreadToDo]. *)
Module ThreadToDo.
Inductive t := run | wait | stop.

Definition eqb (a b : t) : bool :=
  match a, b with
  | run, run | wait, wait | stop, stop => true
  | _, _ => false
  end.
End ThreadToDo.

(** The two kinds of [std::mutex] the file locks: [KernelState::mutex] and
    the [mutex] member of the thread record registered under an id. *)
Inductive Mutex :=
| KernelMutex
| ThreadMutex (thread_id : SceUID).

(** The condition variables the file notifies: [ThreadState::something_to_do]
    of a thread record and [DisplayState::condvar]. *)
Inductive CondVar :=
| SomethingToDo (thread_id : SceUID)
| DisplayCondvar.

#[global] Instance Mutex_eq_dec : EqDecision Mutex.
Proof. solve_decision. Defined.

#[global] Instance CondVar_eq_dec : EqDecision CondVar.
Proof. solve_decision. Defined.

(** [SDL_Event], restricted to the two members the file reads:
    [event.type] and [event.key.keysym.sym]. *)
Record SDL_Event := mkEvent { ev_type : Z; keysym_sym : Z }.

(** Values of the SDL2 headers. *)
Definition SDL_QUIT : Z := 0x100.
Definition SDL_KEYDOWN : Z := 0x300.
Definition SDLK_g : Z := 103.

Definition not_quit (event : SDL_Event) : Prop := ev_type event <> SDL_QUIT.

(** The two [LOG_TRACE] lines of [call_import], with their arguments. *)
Inductive LogRecord :=
| LogHleCall (thread_id : SceUID) (nid : Z) (name : string)
| LogLleCall (thread_id : SceUID) (nid : Z) (export_pc : Address) (name : string).

(** Effects, in program order. *)
Inductive Event :=
| EvLock (m : Mutex)
| EvUnlock (m : Mutex)
| EvFindExport (nid : Z)
| EvResolveImport (nid : Z)
| EvCallImport (nid : Z) (cpu : CpuPtr) (thread_id : SceUID)
| EvWritePc (cpu : CpuPtr) (value : Address)
| EvSetToDo (thread_id : SceUID) (v : ThreadToDo.t)
| EvNotifyAll (cv : CondVar)
| EvLogTrace (r : LogRecord)
| EvImGuiProcess (ev : SDL_Event)
| EvDisplayQueueAbort
| EvSetWindowResizable (resizable : bool)
| EvSetWindowSize (width height : Z).

(** Where the C++ has no defined continuation. *)
Inductive Fault :=
| UnknownThreadId (thread_id : SceUID)
| InvalidCpu (cpu : CpuPtr)
| NativeFault (code : Z).

(** [static const bool LOG_IMPORT_CALLS = false;] *)
Definition LOG_IMPORT_CALLS : bool := false.

(** ** Locks held along a trace *)

(** The mutexes held after a run of effects, starting from [held]:
    [EvLock] is the constructor of a [std::lock_guard], [EvUnlock] its
    destructor. *)
Fixpoint held_after (held : list Mutex) (tr : list Event) : list Mutex :=
  match tr with
  | [] => held
  | EvLock m :: tr' => held_after (m :: held) tr'
  | EvUnlock m :: tr' => held_after (remove Mutex_eq_dec m held) tr'
  | _ :: tr' => held_after held tr'
  end.

(** The effects that precede the first export-table lookup. *)
Fixpoint before_find_export (tr : list Event) : list Event :=
  match tr with
  | [] => []
  | EvFindExport _ :: _ => []
  | e :: tr' => e :: before_find_export tr'
  end.

Definition is_log (e : Event) : bool :=
  match e with EvLogTrace _ => true | _ => false end.

Definition is_set_to_do (e : Event) : bool :=
  match e with EvSetToDo _ _ => true | _ => false end.

Definition is_write_pc (e : Event) : bool :=
  match e with EvWritePc _ _ => true | _ => false end.

Definition is_native_call (e : Event) : bool :=
  match e with EvCallImport _ _ _ | EvResolveImport _ => true | _ => false end.

Definition is_import_call (e : Event) : bool :=
  match e with EvCallImport _ _ _ => true | _ => false end.

Section Host.

(** The parts of the state the file never looks into. *)
Context {CpuRest KernelRest DisplayRest HostRest : Type}.

(** ** State *)

(** Modelled from the spec: [CPUState] is declared in [cpu/], outside the
    sources at hand.  The spec gives a thread "an owned CPU execution
    context" with a program counter; the rest of the context is kept
    abstract. *)
Record CPUState := mkCPU { pc : Address; cpu_rest : CpuRest }.

(** [ThreadState] ([kernel/thread/thread_state.h]): the members the file
    uses.  [mutex] and [something_to_do] carry no data; they are named
    by the thread id in [Mutex] and [CondVar]. *)
Record ThreadState := mkThread { cpu : CpuPtr; to_do : ThreadToDo.t }.

(** [KernelState]: [export_nids] is a [std::map<uint32_t, Address>],
    [threads] a [std::map<SceUID, ThreadStatePtr>].  A [ThreadStatePtr]
    shares the record with the registry, so a write through it is a
    write to the registry entry. *)
Record KernelState := mkKernel {
  export_nids : gmap Z Address;
  threads : gmap Z ThreadState;
  kernel_rest : KernelRest
}.

Record DisplayState := mkDisplay {
  imgui_render : bool;
  abort : bool;
  window_size : Z * Z;
  display_rest : DisplayRest
}.

Record HostState := mkHost {
  kernel : KernelState;
  display : DisplayState;
  display_queue_aborted : bool;
  host_rest : HostRest
}.

(** The machine: the [HostState] every function receives by reference,
    the store of [CPUState] objects that [thread->cpu] and [CPUState &]
    point into, and SDL's pending event queue. *)
Record World := mkWorld {
  host : HostState;
  cpus : gmap Z CPUState;
  sdl_events : list SDL_Event
}.

Definition with_threads (k : KernelState) (ts : gmap Z ThreadState) : KernelState :=
  mkKernel (export_nids k) ts (kernel_rest k).

Definition with_kernel (h : HostState) (k : KernelState) : HostState :=
  mkHost k (display h) (display_queue_aborted h) (host_rest h).

Definition with_display (h : HostState) (d : DisplayState) : HostState :=
  mkHost (kernel h) d (display_queue_aborted h) (host_rest h).

Definition with_host (w : World) (h : HostState) : World :=
  mkWorld h (cpus w) (sdl_events w).

Definition with_cpus (w : World) (cs : gmap Z CPUState) : World :=
  mkWorld (host w) cs (sdl_events w).

Definition with_sdl_events (w : World) (q : list SDL_Event) : World :=
  mkWorld (host w) (cpus w) q.

(** ** The effect monad *)

Inductive Outcome (A : Type) :=
| Done (a : A) (w : World) (tr : list Event)
| Crash (f : Fault) (tr : list Event).
Arguments Done {A} a w tr.
Arguments Crash {A} f tr.

Definition M (A : Type) : Type := World -> Outcome A.

(** Prepend the effects already performed. *)
Definition after {A} (pre : list Event) (o : Outcome A) : Outcome A :=
  match o with
  | Done a w tr => Done a w (pre ++ tr)
  | Crash f tr => Crash f (pre ++ tr)
  end.

#[global] Instance M_ret : MRet M := fun A a w => Done a w [].

#[global] Instance M_bind : MBind M := fun A B k m w =>
  match m w with
  | Done a w' tr => after tr (k a w')
  | Crash f tr => Crash f tr
  end.

Definition get : M World := fun w => Done w w [].
Definition put (w : World) : M unit := fun _ => Done tt w [].
Definition emit (e : Event) : M unit := fun w => Done tt w [e].
Definition crash {A} (f : Fault) : M A := fun _ => Crash f [].

Definition trace_of {A} (o : Outcome A) : list Event :=
  match o with Done _ _ tr => tr | Crash _ tr => tr end.

(** [ImportFn], a [std::function<void(HostState &, CPUState &, SceUID)>]:
    the host is the threaded state, the CPU a reference into the store. *)
Definition NativeFn : Type := CpuPtr -> SceUID -> M unit.

(** The list [nids/nids.h] expands to, each [NID(name, nid)] paired with
    its [import_##name], and [import_name] of [nids/functions.h]. *)
Variable nids : list (Z * NativeFn).
Variable import_name : Z -> string.

(** ** Collaborators outside the file *)

(** Modelled from the spec: [util/lock_and_find.h] is not among the
    sources.  "given a thread id, look up its ThreadRecord (registry
    lock)"; "Looking up a thread id absent from the registry is a logic
    error and must fail loudly (abort with diagnostic)". *)
Definition lock_and_find (key : SceUID) (map : gmap Z ThreadState) (mutex : Mutex)
  : M ThreadState :=
  emit (EvLock mutex);;
  match map !! key with
  | Some v => emit (EvUnlock mutex);; mret v
  | None => crash (UnknownThreadId key)
  end.

(** Modelled from the spec: [write_pc] lives in [cpu/functions.h].  "set
    the target thread's program counter to A"; nothing else of the
    context is touched. *)
Definition write_pc (cpu_ref : CpuPtr) (value : Address) : M unit :=
  w ← get;
  match cpus w !! cpu_ref with
  | Some c =>
      put (with_cpus w (<[cpu_ref := mkCPU value (cpu_rest c)]> (cpus w)));;
      emit (EvWritePc cpu_ref value)
  | None => crash (InvalidCpu cpu_ref)
  end.

(** ** host.cpp *)

(** [resolve_import]: the [switch] over the NIDs; [ImportFn()] (empty)
    when no case matches.  Case labels are distinct, so the first match
    is the only one. *)
Fixpoint resolve_import_in (table : list (Z * NativeFn)) (nid : Z) : option NativeFn :=
  match table with
  | [] => None
  | (n, fn) :: table' => if n =? nid then Some fn else resolve_import_in table' nid
  end.

Definition resolve_import (nid : Z) : option NativeFn := resolve_import_in nids nid.

(** [resolve_export]: "Resolved address, 0 if not found". *)
Definition resolve_export (kernel : KernelState) (nid : Z) : Address :=
  match export_nids kernel !! nid with
  | None => 0
  | Some export_address => export_address
  end.

(** [call_import], with [LOG_IMPORT_CALLS] as a parameter. *)
Definition call_import_with (log_import_calls : bool)
    (caller_cpu : CpuPtr) (nid : Z) (thread_id : SceUID) : M unit :=
  w ← get;
  emit (EvFindExport nid);;
  let export_pc := resolve_export (kernel (host w)) nid in
  if export_pc =? 0 then
    (if log_import_calls
     then emit (EvLogTrace (LogHleCall thread_id nid (import_name nid)))
     else mret tt);;
    emit (EvResolveImport nid);;
    match resolve_import nid with
    | Some fn => emit (EvCallImport nid caller_cpu thread_id);; fn caller_cpu thread_id
    | None => mret tt
    end
  else
    (if log_import_calls
     then emit (EvLogTrace (LogLleCall thread_id nid export_pc (import_name nid)))
     else mret tt);;
    thread ← lock_and_find thread_id (threads (kernel (host w))) KernelMutex;
    emit (EvLock (ThreadMutex thread_id));;
    write_pc (cpu thread) export_pc;;
    emit (EvUnlock (ThreadMutex thread_id)).

Definition call_import : CpuPtr -> Z -> SceUID -> M unit :=
  call_import_with LOG_IMPORT_CALLS.

(** The trace lines each branch of [call_import] writes when logging is
    enabled. *)
Definition log_hle (log : bool) (thread_id nid : Z) : list Event :=
  if log then [EvLogTrace (LogHleCall thread_id nid (import_name nid))] else [].

Definition log_lle (log : bool) (thread_id nid : Z) (export_pc : Address) : list Event :=
  if log then [EvLogTrace (LogLleCall thread_id nid export_pc (import_name nid))] else [].

(** What the HLE branch does once the export lookup has returned 0. *)
Definition hle_path (caller_cpu : CpuPtr) (nid : Z) (thread_id : SceUID) (w : World)
  : Outcome unit :=
  match resolve_import nid with
  | Some fn => after [EvCallImport nid caller_cpu thread_id] (fn caller_cpu thread_id w)
  | None => Done tt w []
  end.

(** [thread->to_do = v], through the [ThreadStatePtr] found under
    [thread_id]. *)
Definition set_to_do (thread_id : SceUID) (thread : ThreadState) (v : ThreadToDo.t)
  : M unit :=
  w ← get;
  let k := kernel (host w) in
  put (with_host w (with_kernel (host w)
         (with_threads k (<[thread_id := mkThread (cpu thread) v]> (threads k)))));;
  emit (EvSetToDo thread_id v).

(** The machine once the record under [thread_id] has been set to [run]. *)
Definition resumed (w : World) (thread_id : SceUID) (t : ThreadState) : World :=
  with_host w (with_kernel (host w)
    (with_threads (kernel (host w))
       (<[thread_id := mkThread (cpu t) ThreadToDo.run]> (threads (kernel (host w)))))).

(** The [resume_thread] closure of [init], handed to the audio subsystem. *)
Definition resume_thread (thread_id : SceUID) : M unit :=
  state ← get;
  thread ← lock_and_find thread_id (threads (kernel (host state))) KernelMutex;
  emit (EvLock (ThreadMutex thread_id));;
  (if ThreadToDo.eqb (to_do thread) ThreadToDo.wait
   then set_to_do thread_id thread ThreadToDo.run
   else mret tt);;
  emit (EvNotifyAll (SomethingToDo thread_id));;
  emit (EvUnlock (ThreadMutex thread_id)).

(** Notify the condition variable of each listed thread, in order. *)
Fixpoint wake_each (thread_ids : list SceUID) : M unit :=
  match thread_ids with
  | [] => mret tt
  | thread_id :: rest =>
      emit (EvNotifyAll (SomethingToDo thread_id));; wake_each rest
  end.

(** Modelled from the spec: [stop_all_threads] is defined in [kernel/], not
    among the sources.  "a process-wide shutdown/abort signal must
    unconditionally wake every thread currently parked in wait, even
    though to_do may remain wait"; it "must iterate the full thread
    registry".  The registry is walked under its lock, every record's
    condition variable is notified, and no [to_do] is written. *)
Definition stop_all_threads : M unit :=
  w ← get;
  emit (EvLock KernelMutex);;
  wake_each (map fst (map_to_list (threads (kernel (host w)))));;
  emit (EvUnlock KernelMutex).

(** [DisplayState::set_dims] and the window constants of [host/app.h]. *)
Variable set_dims : DisplayState -> Z -> Z -> Z -> Z -> DisplayState.
Variables DEFAULT_RES_WIDTH DEFAULT_RES_HEIGHT : Z.
Variables WINDOW_BORDER_WIDTH WINDOW_BORDER_HEIGHT : Z.

Definition modify_display (f : DisplayState -> DisplayState) : M unit :=
  w ← get; put (with_host w (with_display (host w) (f (display (host w))))).

(** The [SDL_QUIT] branch of [handle_events], up to [return false]. *)
Definition handle_quit : M unit :=
  stop_all_threads;;
  w ← get;
  put (with_host w (mkHost (kernel (host w)) (display (host w)) true (host_rest (host w))));;
  emit EvDisplayQueueAbort;;
  modify_display (fun d => mkDisplay (imgui_render d) true (window_size d) (display_rest d));;
  emit (EvNotifyAll DisplayCondvar).

(** The machine after the [SDL_QUIT] branch: the display queue aborted and
    [display.abort] raised; kernel, CPUs and the rest as they were. *)
Definition shut_down (w : World) : World :=
  let d := display (host w) in
  with_host w
    (mkHost (kernel (host w))
            (mkDisplay (imgui_render d) true (window_size d) (display_rest d))
            true
            (host_rest (host w))).

(** The effects of the [SDL_QUIT] branch, in order. *)
Definition quit_trace (w : World) : list Event :=
  EvLock KernelMutex ::
  map (fun thread_id => EvNotifyAll (SomethingToDo thread_id))
      (map fst (map_to_list (threads (kernel (host w))))) ++
  [EvUnlock KernelMutex; EvDisplayQueueAbort; EvNotifyAll DisplayCondvar].

(** The [SDLK_g] branch: the compare-exchange loop ends with
    [imgui_render] negated and [old_imgui_render] holding the value it
    replaced. *)
Definition toggle_gui : M unit :=
  w ← get;
  let old_imgui_render := imgui_render (display (host w)) in
  modify_display (fun d =>
    mkDisplay (negb old_imgui_render) (abort d) (window_size d) (display_rest d));;
  (if old_imgui_render
   then modify_display (fun d => set_dims d DEFAULT_RES_WIDTH DEFAULT_RES_HEIGHT 0 0);;
        emit (EvSetWindowResizable false)
   else modify_display (fun d => set_dims d DEFAULT_RES_WIDTH DEFAULT_RES_HEIGHT
                                   WINDOW_BORDER_WIDTH WINDOW_BORDER_HEIGHT);;
        emit (EvSetWindowResizable true));;
  w' ← get;
  emit (EvSetWindowSize (fst (window_size (display (host w'))))
                        (snd (window_size (display (host w'))))).

(** The [while (SDL_PollEvent(&event))] loop over the pending queue; each
    round pops the head. *)
Fixpoint poll_events (queue : list SDL_Event) : M bool :=
  match queue with
  | [] => mret true
  | event :: rest =>
      w ← get;
      put (with_sdl_events w rest);;
      emit (EvImGuiProcess event);;
      if ev_type event =? SDL_QUIT then
        handle_quit;; mret false
      else
        (if (ev_type event =? SDL_KEYDOWN) && (keysym_sym event =? SDLK_g)
         then toggle_gui
         else mret tt);;
        poll_events rest
  end.

Definition handle_events : M bool :=
  w ← get; poll_events (sdl_events w).

(** ** What counts as an effect on the outside

    Lock handling and the two table lookups read and restore; everything
    else (a register write, a status write, a notification, a log line, a
    native call, a window or GUI call) is visible to other threads or to
    the user. *)
Definition observable (e : Event) : bool :=
  match e with
  | EvLock _ | EvUnlock _ | EvFindExport _ | EvResolveImport _ => false
  | _ => true
  end.

(** A call is a no-op from [w] when it returns, leaves the machine as it
    found it, and performs no observable effect. *)
Definition no_op {A} (m : M A) (w : World) : Prop :=
  exists a tr, m w = Done a w tr /\ existsb observable tr = false.

End Host.


Arguments Done {CpuRest KernelRest DisplayRest HostRest A} a w tr.
Arguments Crash {CpuRest KernelRest DisplayRest HostRest A} f tr.

(** ** Sample machines

    One guest thread, id 1, whose CPU lives at handle 7 with its program
    counter at [0x80000000].  The abstract parts are [unit], except the rest
    of the host, which is a counter a native function can bump. *)

Abbreviation SampleWorld := (@World unit unit unit Z).
Abbreviation SampleFn := (@NativeFn unit unit unit Z).

Definition sample_world (exports : gmap Z Address) (td : ThreadToDo.t)
    (queue : list SDL_Event) : SampleWorld :=
  mkWorld
    (mkHost (mkKernel exports {[ 1 := mkThread 7 td ]} tt)
            (mkDisplay false false (960, 544) tt)
            false
            0)
    {[ 7 := mkCPU 0x80000000 tt ]}
    queue.

(** A native function that increments the host counter. *)
Definition bump_counter : SampleFn := fun _ _ w =>
  Done tt
    (with_host w (mkHost (kernel (host w)) (display (host w))
                         (display_queue_aborted (host w)) (host_rest (host w) + 1)))
    [].

Definition sample_nids : list (Z * SampleFn) := [(0xDEAD0001, bump_counter)].

Definition sample_import_name (nid : Z) : string :=
  if nid =? 0xDEAD0001 then "bumpCounter"%string else "UNRECOGNISED"%string.

Definition sample_set_dims (d : @DisplayState unit) (w h bw bh : Z) : @DisplayState unit :=
  mkDisplay (imgui_render d) (abort d) (w + bw, h + bh) (display_rest d).

(** A pending queue: a [g] key press, then the quit event, then a mouse
    event. *)
Definition sample_queue : list SDL_Event :=
  [mkEvent SDL_KEYDOWN SDLK_g; mkEvent SDL_QUIT 0; mkEvent 0x400 0].

(** ** Further observations on traces *)

Definition is_imgui (e : Event) : bool :=
  match e with EvImGuiProcess _ => true | _ => false end.

Definition is_notify_all (e : Event) : bool :=
  match e with EvNotifyAll _ => true | _ => false end.

Definition is_lock (e : Event) : bool :=
  match e with EvLock _ | EvUnlock _ => true | _ => false end.

(** The largest number of mutexes held at once along a trace. *)
Fixpoint max_held (held : list Mutex) (tr : list Event) : nat :=
  match tr with
  | [] => length held
  | EvLock m :: tr' => Nat.max (length held) (max_held (m :: held) tr')
  | EvUnlock m :: tr' =>
      Nat.max (length held) (max_held (remove Mutex_eq_dec m held) tr')
  | _ :: tr' => max_held held tr'
  end.

(** The test of the [SDLK_g] branch of [handle_events]. *)
Definition is_g_press (event : SDL_Event) : bool :=
  (ev_type event =? SDL_KEYDOWN) && (keysym_sym event =? SDLK_g).

(** An event [handle_events] only forwards to ImGui. *)
Definition plain_event (event : SDL_Event) : Prop :=
  ev_type event <> SDL_QUIT /\ is_g_press event = false.

Section Erasure.

Context {CpuRest KernelRest DisplayRest HostRest : Type}.

(** An outcome with the log lines taken out of its trace. *)
Definition without_logs {A}
    (o : @Outcome CpuRest KernelRest DisplayRest HostRest A)
  : @Outcome CpuRest KernelRest DisplayRest HostRest A :=
  match o with
  | Done a w tr => Done a w (List.filter (fun e => negb (is_log e)) tr)
  | Crash f tr => Crash f (List.filter (fun e => negb (is_log e)) tr)
  end.

End Erasure.

Section Toggle.

Context {CpuRest KernelRest DisplayRest HostRest : Type}.

Variable set_dims : @DisplayState DisplayRest -> Z -> Z -> Z -> Z -> @DisplayState DisplayRest.
Variables DEFAULT_RES_WIDTH DEFAULT_RES_HEIGHT : Z.
Variables WINDOW_BORDER_WIDTH WINDOW_BORDER_HEIGHT : Z.

(** The display after one pass through the [SDLK_g] branch: the flag
    negated, then the dimensions set without the border if the GUI was
    shown and with it if not. *)
Definition toggled_display (d : @DisplayState DisplayRest) : @DisplayState DisplayRest :=
  let d1 := mkDisplay (negb (imgui_render d)) (abort d) (window_size d) (display_rest d) in
  if imgui_render d
  then set_dims d1 DEFAULT_RES_WIDTH DEFAULT_RES_HEIGHT 0 0
  else set_dims d1 DEFAULT_RES_WIDTH DEFAULT_RES_HEIGHT
                WINDOW_BORDER_WIDTH WINDOW_BORDER_HEIGHT.

Definition toggled (w : @World CpuRest KernelRest DisplayRest HostRest)
  : @World CpuRest KernelRest DisplayRest HostRest :=
  with_host w (with_display (host w) (toggled_display (display (host w)))).

(** The two SDL calls of the branch. *)
Definition toggle_trace (d : @DisplayState DisplayRest) : list Event :=
  [EvSetWindowResizable (negb (imgui_render d));
   EvSetWindowSize (fst (window_size (toggled_display d)))
                   (snd (window_size (toggled_display d)))].

(** The machine and the effects after one round of the loop on an event
    other than [SDL_QUIT], the queue behind it being [rest]. *)
Definition after_event (event : SDL_Event) (rest : list SDL_Event)
    (w : @World CpuRest KernelRest DisplayRest HostRest)
  : @World CpuRest KernelRest DisplayRest HostRest :=
  if is_g_press event
  then toggled (with_sdl_events w rest)
  else with_sdl_events w rest.

Definition event_trace (event : SDL_Event)
    (w : @World CpuRest KernelRest DisplayRest HostRest) : list Event :=
  EvImGuiProcess event ::
  (if is_g_press event then toggle_trace (display (host w)) else []).

End Toggle.

(** ** Start-up: [init]

    [init] works on the same [HostState].  The members it touches beyond
    kernel and display are gathered in [HostFields]; of the kernel it sets
    [base_tick], which stands for the kernel's remaining part here. *)

(** The three attributes [init] sets with [SDL_GL_SetAttribute]. *)
Inductive GLAttr :=
| SDL_GL_CONTEXT_MAJOR_VERSION
| SDL_GL_CONTEXT_MINOR_VERSION
| SDL_GL_CONTEXT_PROFILE_MASK.

Definition SDL_GL_CONTEXT_PROFILE_CORE : Z := 1.

(** The calls [init] makes into SDL, glbinding, the sub-system
    initialisers and the C library, in program order. *)
Inductive BootCall :=
| CallGetBasePath
| CallGetPrefPath
| CallCreateWindow (width height : Z)
| CallInitMem
| CallInitAudio
| CallInitIo (pref_path : string)
| CallGLSetAttribute (attr : GLAttr) (value : Z)
| CallGLCreateContext
| CallLogError (msg : string)
| CallGLSetSwapInterval (interval : Z)
| CallLogSwapInterval (interval : Z)
| CallBindingInitialize
| CallSetCallbackMaskExcept
| CallSetBeforeCallback
| CallSetAfterCallback
| CallRtcBaseTicks
| CallOpenDir (path : string)
| CallCloseDir.

Definition is_gl_call (c : BootCall) : bool :=
  match c with
  | CallGLSetAttribute _ _ | CallGLCreateContext | CallGLSetSwapInterval _
  | CallBindingInitialize | CallSetCallbackMaskExcept
  | CallSetBeforeCallback | CallSetAfterCallback => true
  | _ => false
  end.

Definition is_open_dir (c : BootCall) : bool :=
  match c with CallOpenDir _ => true | _ => false end.

Section Boot.

Context {Window GLContext Mem Audio IoRest DisplayRest Buffer SfoFile : Type}.

(** [state.io]: [title_id] and the rest. *)
Record IOState := mkIO { title_id : string; io_rest : IoRest }.

(** [WindowPtr] and [GLContextPtr] are null or hold a handle;
    [title_ids] and [titles] are the two vectors of
    [state.gui.game_selector]. *)
Record HostFields := mkFields {
  base_path : string;
  pref_path : string;
  window : option Window;
  glcontext : option GLContext;
  mem : Mem;
  audio : Audio;
  io : IOState;
  game_title : string;
  title_ids : list string;
  titles : list string
}.

Abbreviation BootHost := (@HostState Z DisplayRest HostFields).

Definition base_tick (state : BootHost) : Z := kernel_rest (kernel state).

Definition with_fields (state : BootHost) (f : HostFields) : BootHost :=
  mkHost (kernel state) (display state) (display_queue_aborted state) f.

Definition set_paths (base pref : string) (state : BootHost) : BootHost :=
  let f := host_rest state in
  with_fields state
    (mkFields base pref (window f) (glcontext f) (mem f) (audio f) (io f)
              (game_title f) (title_ids f) (titles f)).

Definition set_window (win : option Window) (state : BootHost) : BootHost :=
  let f := host_rest state in
  with_fields state
    (mkFields (base_path f) (pref_path f) win (glcontext f) (mem f) (audio f) (io f)
              (game_title f) (title_ids f) (titles f)).

Definition set_glcontext (ctx : option GLContext) (state : BootHost) : BootHost :=
  let f := host_rest state in
  with_fields state
    (mkFields (base_path f) (pref_path f) (window f) ctx (mem f) (audio f) (io f)
              (game_title f) (title_ids f) (titles f)).

Definition set_mem (m : Mem) (state : BootHost) : BootHost :=
  let f := host_rest state in
  with_fields state
    (mkFields (base_path f) (pref_path f) (window f) (glcontext f) m (audio f) (io f)
              (game_title f) (title_ids f) (titles f)).

Definition set_audio (a : Audio) (state : BootHost) : BootHost :=
  let f := host_rest state in
  with_fields state
    (mkFields (base_path f) (pref_path f) (window f) (glcontext f) (mem f) a (io f)
              (game_title f) (title_ids f) (titles f)).

Definition set_io (i : IOState) (state : BootHost) : BootHost :=
  let f := host_rest state in
  with_fields state
    (mkFields (base_path f) (pref_path f) (window f) (glcontext f) (mem f) (audio f) i
              (game_title f) (title_ids f) (titles f)).

Definition set_game_title (title : string) (state : BootHost) : BootHost :=
  let f := host_rest state in
  with_fields state
    (mkFields (base_path f) (pref_path f) (window f) (glcontext f) (mem f) (audio f)
              (io f) title (title_ids f) (titles f)).

(** The two [push_back]s of the scan. *)
Definition push_game (id title : string) (state : BootHost) : BootHost :=
  let f := host_rest state in
  with_fields state
    (mkFields (base_path f) (pref_path f) (window f) (glcontext f) (mem f) (audio f)
              (io f) (game_title f) (title_ids f ++ [id]) (titles f ++ [title])).

Definition set_base_tick (tick : Z) (state : BootHost) : BootHost :=
  with_kernel state
    (mkKernel (export_nids (kernel state)) (threads (kernel state)) tick).

(** *** The application directory scan

    [read_file_from_disk], [load_sfo] and [find_data] are defined
    elsewhere.  The first reads the state (the preference path and
    [io.title_id]) and fails or yields the file; the last overwrites its
    first argument, here [state.game_title]. *)
Variable read_file_from_disk : string -> BootHost -> option Buffer.
Variable load_sfo : Buffer -> SfoFile.
Variable find_data : string -> SfoFile -> string -> string.

(** One round of the [do ... while (dp)] loop on a directory entry. *)
Definition scan_entry (d_name : string) (state : BootHost) : BootHost :=
  if negb (d_name =? ".")%string && negb (d_name =? "..")%string then
    let state1 := set_io (mkIO d_name (io_rest (io (host_rest state)))) state in
    match read_file_from_disk "sce_sys/param.sfo" state1 with
    | Some params =>
        let sfo_handle := load_sfo params in
        let state2 :=
          set_game_title (find_data (game_title (host_rest state1)) sfo_handle "TITLE")
                         state1 in
        push_game (title_id (io (host_rest state2))) (game_title (host_rest state2)) state2
    | None => state1
    end
  else state.

(** The loop over what [readdir] returns until it returns [NULL]. *)
Fixpoint scan_dir (entries : list string) (state : BootHost) : BootHost :=
  match entries with
  | [] => state
  | d_name :: rest => scan_dir rest (scan_entry d_name state)
  end.

(** An entry the scan looks into. *)
Definition scanned (d_name : string) : bool :=
  negb (d_name =? ".")%string && negb (d_name =? "..")%string.

(** *** [init] *)

(** What the environment answers: [NULL] or a path from the two SDL path
    calls, a window or none, the three sub-system initialisers with their
    effect on the state they are given, a GL context or none, the return
    values of the swap-interval calls, the RTC tick, and for [opendir]
    the entries [readdir] will return, or [NULL].  [MICROPROFILE_ENABLED]
    is a build setting. *)
Record Platform := mkPlatform {
  sdl_base_path : option string;
  sdl_pref_path : option string;
  sdl_create_window : Z -> Z -> option Window;
  init_mem : Mem -> bool * Mem;
  init_audio : Audio -> bool * Audio;
  init_io : IOState -> string -> bool * IOState;
  sdl_gl_create_context : Window -> option GLContext;
  sdl_gl_set_swap_interval : Z -> Z;
  sdl_gl_get_swap_interval : Z;
  rtc_base_ticks : Z;
  opendir : string -> option (list string);
  microprofile_enabled : bool
}.

(** A run either goes on, has executed a [return], or has left defined
    behaviour (a null [char *] assigned to a [std::string], [readdir] on a
    null [DIR *]). *)
Inductive BootStep (A : Type) :=
| Next (a : A) (state : BootHost) (calls : list BootCall)
| Returned (result : bool) (state : BootHost) (calls : list BootCall)
| Undefined (calls : list BootCall).
Arguments Next {A} a state calls.
Arguments Returned {A} result state calls.
Arguments Undefined {A} calls.

Definition Boot (A : Type) : Type := BootHost -> BootStep A.

Definition preceded {A} (pre : list BootCall) (r : BootStep A) : BootStep A :=
  match r with
  | Next a state calls => Next a state (pre ++ calls)
  | Returned b state calls => Returned b state (pre ++ calls)
  | Undefined calls => Undefined (pre ++ calls)
  end.

#[global] Instance Boot_ret : MRet Boot := fun A a state => Next a state [].

#[global] Instance Boot_bind : MBind Boot := fun A B k m state =>
  match m state with
  | Next a state' calls => preceded calls (k a state')
  | Returned b state' calls => Returned b state' calls
  | Undefined calls => Undefined calls
  end.

Definition current : Boot BootHost := fun state => Next state state [].
Definition update (f : BootHost -> BootHost) : Boot unit :=
  fun state => Next tt (f state) [].
Definition call (c : BootCall) : Boot unit := fun state => Next tt state [c].
Definition return_ {A} (b : bool) : Boot A := fun state => Returned b state [].
Definition undefined {A} : Boot A := fun _ => Undefined [].

Definition calls_of {A} (r : BootStep A) : list BootCall :=
  match r with
  | Next _ _ calls | Returned _ _ calls | Undefined calls => calls
  end.

Variable set_dims : @DisplayState DisplayRest -> Z -> Z -> Z -> Z -> @DisplayState DisplayRest.
Variables DEFAULT_RES_WIDTH DEFAULT_RES_HEIGHT : Z.
Variables WINDOW_BORDER_WIDTH WINDOW_BORDER_HEIGHT : Z.

(** The condition [!state.window || !init(state.mem) ||
    !init(state.audio, resume_thread) || !init(state.io, pref_path)],
    evaluated left to right and cut short at the first true operand. *)
Definition subsystems_missing (p : Platform) : Boot bool :=
  state ← current;
  match window (host_rest state) with
  | None => mret true
  | Some _ =>
      call CallInitMem;;
      let '(mem_ok, m) := init_mem p (mem (host_rest state)) in
      update (set_mem m);;
      if negb mem_ok then mret true else
      call CallInitAudio;;
      let '(audio_ok, a) := init_audio p (audio (host_rest state)) in
      update (set_audio a);;
      if negb audio_ok then mret true else
      call (CallInitIo (pref_path (host_rest state)));;
      let '(io_ok, i) := init_io p (io (host_rest state)) (pref_path (host_rest state)) in
      update (set_io i);;
      mret (negb io_ok)
  end.

Definition init (p : Platform) : Boot bool :=
  call CallGetBasePath;;
  call CallGetPrefPath;;
  match sdl_base_path p, sdl_pref_path p with
  | Some base, Some pref =>
      update (set_paths base pref);;
      update (fun state =>
        with_display state
          (set_dims (display state) DEFAULT_RES_WIDTH DEFAULT_RES_HEIGHT
                    WINDOW_BORDER_WIDTH WINDOW_BORDER_HEIGHT));;
      state ← current;
      let size := window_size (display state) in
      call (CallCreateWindow (fst size) (snd size));;
      update (set_window (sdl_create_window p (fst size) (snd size)));;
      missing ← subsystems_missing p;
      if (missing : bool) then return_ false else
      call (CallGLSetAttribute SDL_GL_CONTEXT_MAJOR_VERSION 4);;
      call (CallGLSetAttribute SDL_GL_CONTEXT_MINOR_VERSION 1);;
      call (CallGLSetAttribute SDL_GL_CONTEXT_PROFILE_MASK SDL_GL_CONTEXT_PROFILE_CORE);;
      state ← current;
      call CallGLCreateContext;;
      update (set_glcontext
                match window (host_rest state) with
                | Some win => sdl_gl_create_context p win
                | None => None
                end);;
      state ← current;
      match glcontext (host_rest state) with
      | None =>
          call (CallLogError "Could not create OpenGL context.");;
          return_ false
      | Some _ =>
          call (CallGLSetSwapInterval (-1));;
          (if sdl_gl_set_swap_interval p (-1) <? 0
           then call (CallGLSetSwapInterval 1)
           else mret tt);;
          call (CallLogSwapInterval (sdl_gl_get_swap_interval p));;
          call CallBindingInitialize;;
          call CallSetCallbackMaskExcept;;
          (if microprofile_enabled p then call CallSetBeforeCallback else mret tt);;
          call CallSetAfterCallback;;
          call CallRtcBaseTicks;;
          update (set_base_tick (rtc_base_ticks p));;
          state ← current;
          let dir_path := (pref_path (host_rest state) ++ "ux0/app")%string in
          call (CallOpenDir dir_path);;
          match opendir p dir_path with
          | None => undefined
          | Some entries =>
              update (scan_dir entries);;
              call CallCloseDir;;
              return_ true
          end
      end
  | _, _ => undefined
  end.

End Boot.

Arguments Next {Window GLContext Mem Audio IoRest DisplayRest A} a state calls.
Arguments Returned {Window GLContext Mem Audio IoRest DisplayRest A} result state calls.
Arguments Undefined {Window GLContext Mem Audio IoRest DisplayRest A} calls.


(** ** The glbinding hooks

    [after_callback] runs after every GL call but [glGetError].
    [results] is what successive calls of [glGetError] return; once it is
    used up the answer is [GL_NO_ERROR].  [asserts] says whether [assert]
    is compiled in ([NDEBUG] not defined). *)

Definition GL_NO_ERROR : Z := 0.

Inductive HookEffect :=
| MicroProfileLeave
| LogGLError (function_name : string) (error : Z).

Inductive HookResult :=
| HookReturned (results : list Z) (effects : list HookEffect)
| AssertionFailed (results : list Z) (effects : list HookEffect).

Definition hook_then (e : HookEffect) (r : HookResult) : HookResult :=
  match r with
  | HookReturned results effects => HookReturned results (e :: effects)
  | AssertionFailed results effects => AssertionFailed results (e :: effects)
  end.

(** The [for (error = glGetError(); error != GL_NO_ERROR;
    error = glGetError())] loop. *)
Fixpoint drain_gl_errors (asserts : bool) (function_name : string) (results : list Z)
  : HookResult :=
  match results with
  | [] => HookReturned [] []
  | error :: rest =>
      if error =? GL_NO_ERROR then HookReturned rest []
      else if asserts
           then AssertionFailed rest [LogGLError function_name error]
           else hook_then (LogGLError function_name error)
                          (drain_gl_errors asserts function_name rest)
  end.

Definition after_callback (asserts : bool) (function_name : string) (results : list Z)
  : HookResult :=
  hook_then MicroProfileLeave (drain_gl_errors asserts function_name results).

Definition hook_effects (r : HookResult) : list HookEffect :=
  match r with HookReturned _ effects | AssertionFailed _ effects => effects end.

(** ** Sample start-up

    Handles are numbers, the memory and audio states record whether they
    were initialised, a file is its contents, and an SFO file is its
    title.  One application directory, [PCSE00001], carries a readable
    [param.sfo]; [EMPTY] does not. *)

Abbreviation SampleBootHost :=
  (@HostState Z unit (@HostFields Z Z bool bool unit)).
Abbreviation SamplePlatform := (@Platform Z Z bool bool unit).

Definition sample_boot_state : SampleBootHost :=
  mkHost (mkKernel ∅ ∅ 0)
         (mkDisplay false false (0, 0) tt)
         false
         (mkFields "" "" None None false false (mkIO "" tt) "" [] []).

Definition sample_read_file (file : string) (state : SampleBootHost) : option string :=
  if (file =? "sce_sys/param.sfo")%string
     && (title_id (io (host_rest state)) =? "PCSE00001")%string
  then Some "Game One"%string
  else None.

Definition sample_load_sfo (params : string) : string := params.

Definition sample_find_data (out_data sfo key : string) : string :=
  if (key =? "TITLE")%string then sfo else out_data.

Definition sample_readable (d_name : string) : bool := (d_name =? "PCSE00001")%string.

Definition sample_listing : list string :=
  ["."; ".."; "PCSE00001"; "EMPTY"]%string.

(** A platform on which everything works unless a flag says otherwise. *)
Definition sample_platform (paths_ok window_ok mem_ok context_ok dir_ok : bool)
    (adaptive_vsync : Z) : SamplePlatform :=
  mkPlatform
    (if paths_ok then Some "/opt/vita3k/"%string else None)
    (Some "/home/user/.vita3k/"%string)
    (fun width height => if window_ok then Some 1 else None)
    (fun _ => (mem_ok, true))
    (fun _ => (true, true))
    (fun i _ => (true, i))
    (fun _ => if context_ok then Some 2 else None)
    (fun interval => if interval =? -1 then adaptive_vsync else 0)
    1
    1000
    (fun path =>
       if dir_ok && (path =? "/home/user/.vita3k/ux0/app")%string
       then Some sample_listing else None)
    false.

Definition sample_init (p : SamplePlatform) :=
  init sample_read_file sample_load_sfo sample_find_data sample_set_dims
       960 544 0 34 p sample_boot_state.

(** The state a run ends in; the state it started from if it ends
    outside defined behaviour. *)
Definition final_state {A} (r : @BootStep Z Z bool bool unit unit A) : SampleBootHost :=
  match r with
  | Next _ state _ | Returned _ state _ => state
  | Undefined _ => sample_boot_state
  end.

Definition sample_good : SamplePlatform := sample_platform true true true true true (-1).
Definition sample_no_paths : SamplePlatform := sample_platform false true true true true 0.
Definition sample_no_mem : SamplePlatform := sample_platform true true false true true 0.
Definition sample_no_context : SamplePlatform := sample_platform true true true false true 0.
Definition sample_no_dir : SamplePlatform := sample_platform true true true true false 0.

(** * Properties *)

Section HostFacts.

Context {CpuRest KernelRest DisplayRest HostRest : Type}.

Local Abbreviation World := (@World CpuRest KernelRest DisplayRest HostRest).
Local Abbreviation NativeFn := (@NativeFn CpuRest KernelRest DisplayRest HostRest).
Local Abbreviation KernelState := (@KernelState KernelRest).
Local Abbreviation CPUState := (@CPUState CpuRest).

Variable nids : list (Z * NativeFn).
Variable import_name : Z -> string.

(** Unfold the functions of the file, then the monad, down to matches on
    lookups. *)
Ltac unfold_host :=
  unfold call_import, call_import_with, hle_path, log_hle, log_lle,
         resume_thread, handle_events, handle_quit, stop_all_threads, toggle_gui.

Ltac run_m :=
  cbv [mbind M_bind mret M_ret emit get put crash after lock_and_find write_pc
       set_to_do modify_display];
  cbn [app].

(** Apply [tac] to the machine on which the event loop is resumed. *)
Ltac on_resumed_loop tac :=
  match goal with
  | |- context [poll_events _ _ _ _ _ _ ?w1] => tac w1
  end.

Local Abbreviation resolve_import := (resolve_import nids).
Local Abbreviation hle_path := (hle_path nids).
Local Abbreviation log_hle := (log_hle import_name).
Local Abbreviation log_lle := (log_lle import_name).
Local Abbreviation call_import_with := (call_import_with nids import_name).
Local Abbreviation call_import := (call_import nids import_name).


(** ** The export table *)

Lemma resolve_export_miss (k : KernelState) (nid : Z) :
  export_nids k !! nid = None -> resolve_export k nid = 0.
Proof. intros H. unfold resolve_export. now rewrite H. Qed.

Lemma resolve_export_hit (k : KernelState) (nid : Z) (a : Address) :
  export_nids k !! nid = Some a -> resolve_export k nid = a.
Proof. intros H. unfold resolve_export. now rewrite H. Qed.

(** ** The dispatcher, path by path *)

Lemma call_import_with_hle (log : bool) (caller_cpu : CpuPtr) (nid : Z)
    (thread_id : SceUID) (w : World) :
  resolve_export (kernel (host w)) nid = 0 ->
  call_import_with log caller_cpu nid thread_id w =
  after (EvFindExport nid :: log_hle log thread_id nid ++ [EvResolveImport nid])
        (hle_path caller_cpu nid thread_id w).
Proof.
  intros Hz. unfold_host.
  run_m. rewrite Hz. simpl.
  destruct log; simpl; destruct resolve_import as [fn|]; simpl;
    try reflexivity; destruct (fn caller_cpu thread_id w); reflexivity.
Qed.

Lemma call_import_with_lle (log : bool) (caller_cpu : CpuPtr) (nid : Z)
    (thread_id : SceUID) (w : World) (a : Address) (t : ThreadState) (c : CPUState) :
  export_nids (kernel (host w)) !! nid = Some a ->
  a <> 0 ->
  threads (kernel (host w)) !! thread_id = Some t ->
  cpus w !! cpu t = Some c ->
  call_import_with log caller_cpu nid thread_id w =
  Done tt
    (with_cpus w (<[cpu t := mkCPU a (cpu_rest c)]> (cpus w)))
    (EvFindExport nid :: log_lle log thread_id nid a ++
     [EvLock KernelMutex; EvUnlock KernelMutex;
      EvLock (ThreadMutex thread_id); EvWritePc (cpu t) a;
      EvUnlock (ThreadMutex thread_id)]).
Proof.
  intros He Ha Ht Hc. unfold_host.
  run_m. rewrite (resolve_export_hit _ _ _ He).
  destruct (Z.eqb_spec a 0) as [|_]; [contradiction|].
  destruct log; simpl; rewrite Ht; simpl; rewrite Hc; reflexivity.
Qed.

(** ** Resuming a thread *)

Lemma resume_thread_from_wait (w : World) (thread_id : SceUID) (t : ThreadState) :
  threads (kernel (host w)) !! thread_id = Some t ->
  to_do t = ThreadToDo.wait ->
  resume_thread thread_id w =
  Done tt (resumed w thread_id t)
    [EvLock KernelMutex; EvUnlock KernelMutex; EvLock (ThreadMutex thread_id);
     EvSetToDo thread_id ThreadToDo.run; EvNotifyAll (SomethingToDo thread_id);
     EvUnlock (ThreadMutex thread_id)].
Proof.
  intros Ht Hw. unfold_host. run_m. rewrite Ht. simpl. rewrite Hw. reflexivity.
Qed.

Lemma resume_thread_otherwise (w : World) (thread_id : SceUID) (t : ThreadState) :
  threads (kernel (host w)) !! thread_id = Some t ->
  to_do t <> ThreadToDo.wait ->
  resume_thread thread_id w =
  Done tt w
    [EvLock KernelMutex; EvUnlock KernelMutex; EvLock (ThreadMutex thread_id);
     EvNotifyAll (SomethingToDo thread_id); EvUnlock (ThreadMutex thread_id)].
Proof.
  intros Ht Hw. unfold_host. run_m. rewrite Ht. simpl.
  destruct (to_do t); simpl; try reflexivity. contradiction.
Qed.

Lemma resume_thread_unknown (w : World) (thread_id : SceUID) :
  threads (kernel (host w)) !! thread_id = None ->
  resume_thread thread_id w = Crash (UnknownThreadId thread_id) [EvLock KernelMutex].
Proof. intros Ht. unfold_host. run_m. rewrite Ht. reflexivity. Qed.

(** A second resume finds nothing left to do. *)
Lemma resume_thread_twice (w : World) (thread_id : SceUID) (t : ThreadState) :
  threads (kernel (host w)) !! thread_id = Some t ->
  exists w1 tr1 tr2,
    resume_thread thread_id w = Done tt w1 tr1 /\
    resume_thread thread_id w1 = Done tt w1 tr2.
Proof.
  intros Ht. destruct (ThreadToDo.eqb (to_do t) ThreadToDo.wait) eqn:Hw.
  - assert (to_do t = ThreadToDo.wait) as Hwait by (destruct (to_do t); easy).
    exists (resumed w thread_id t). eexists _, _.
    split; [apply (resume_thread_from_wait _ _ _ Ht Hwait)|].
    apply (resume_thread_otherwise _ _ (mkThread (cpu t) ThreadToDo.run)).
    + apply lookup_insert_eq.
    + discriminate.
  - assert (to_do t <> ThreadToDo.wait) as Hnw by (intros E; rewrite E in Hw; easy).
    exists w. eexists _, _.
    split; apply (resume_thread_otherwise _ _ _ Ht Hnw).
Qed.

(** ** Shutdown *)

Variable set_dims : @DisplayState DisplayRest -> Z -> Z -> Z -> Z -> @DisplayState DisplayRest.
Variables DEFAULT_RES_WIDTH DEFAULT_RES_HEIGHT : Z.
Variables WINDOW_BORDER_WIDTH WINDOW_BORDER_HEIGHT : Z.

Local Abbreviation poll_events :=
  (poll_events set_dims DEFAULT_RES_WIDTH DEFAULT_RES_HEIGHT
               WINDOW_BORDER_WIDTH WINDOW_BORDER_HEIGHT).
Local Abbreviation handle_events :=
  (handle_events set_dims DEFAULT_RES_WIDTH DEFAULT_RES_HEIGHT
                 WINDOW_BORDER_WIDTH WINDOW_BORDER_HEIGHT).

Lemma wake_each_trace (thread_ids : list SceUID) (w : World) :
  wake_each thread_ids w =
  Done tt w (map (fun thread_id => EvNotifyAll (SomethingToDo thread_id)) thread_ids).
Proof.
  induction thread_ids as [|thread_id rest IH]; simpl; [reflexivity|].
  run_m. rewrite IH. reflexivity.
Qed.

Lemma registered_ids (m : gmap Z ThreadState) (thread_id : SceUID) :
  is_Some (m !! thread_id) -> In thread_id (map fst (map_to_list m)).
Proof.
  intros [t Ht]. apply in_map_iff. exists (thread_id, t). split; [reflexivity|].
  apply list_elem_of_In. now apply elem_of_map_to_list.
Qed.

Lemma handle_quit_run (w : World) :
  handle_quit w = Done tt (shut_down w) (quit_trace w).
Proof.
  unfold_host. run_m. rewrite wake_each_trace. simpl.
  unfold quit_trace. rewrite <- app_assoc. reflexivity.
Qed.

Lemma poll_events_quit (quit : SDL_Event) (post : list SDL_Event) (w : World) :
  ev_type quit = SDL_QUIT ->
  poll_events (quit :: post) w =
  Done false (shut_down (with_sdl_events w post)) (EvImGuiProcess quit :: quit_trace w).
Proof.
  intros Hq. simpl. run_m. rewrite Hq. simpl. rewrite handle_quit_run.
  simpl. rewrite app_nil_r. reflexivity.
Qed.

Lemma quit_trace_wakes (w : World) (thread_id : SceUID) :
  is_Some (threads (kernel (host w)) !! thread_id) ->
  In (EvNotifyAll (SomethingToDo thread_id)) (quit_trace w).
Proof.
  intros Hs. unfold quit_trace. right. apply in_or_app. left.
  apply (in_map (fun i => EvNotifyAll (SomethingToDo i))). now apply registered_ids.
Qed.

Lemma quit_trace_display (w : World) :
  In (EvNotifyAll DisplayCondvar) (quit_trace w).
Proof.
  unfold quit_trace. right. apply in_or_app. right.
  right. right. left. reflexivity.
Qed.

Lemma quit_trace_no_status_write (w : World) :
  existsb is_set_to_do (quit_trace w) = false.
Proof.
  unfold quit_trace. simpl. rewrite existsb_app. simpl. rewrite orb_false_r.
  induction (map fst _) as [|x l IHl]; simpl; auto.
Qed.

Lemma poll_events_until_quit (pre : list SDL_Event) (quit : SDL_Event)
    (post : list SDL_Event) :
  Forall not_quit pre ->
  ev_type quit = SDL_QUIT ->
  forall w : World,
  exists w' tr,
    poll_events (pre ++ quit :: post) w = Done false w' tr /\
    kernel (host w') = kernel (host w) /\
    cpus w' = cpus w /\
    abort (display (host w')) = true /\
    display_queue_aborted (host w') = true /\
    sdl_events w' = post /\
    (forall thread_id, is_Some (threads (kernel (host w)) !! thread_id) ->
       In (EvNotifyAll (SomethingToDo thread_id)) tr) /\
    In (EvNotifyAll DisplayCondvar) tr /\
    existsb is_set_to_do tr = false.
Proof.
  intros Hpre Hq. induction Hpre as [|event pre Hev _ IH]; intros w.
  - cbn [app]. rewrite (poll_events_quit _ _ _ Hq).
    eexists _, _. split; [reflexivity|]. repeat split.
    + intros thread_id Hs. right. now apply quit_trace_wakes.
    + right. apply quit_trace_display.
    + simpl. apply quit_trace_no_status_write.
  - simpl. run_m.
    destruct (Z.eqb_spec (ev_type event) SDL_QUIT) as [Heq|_]; [contradiction|].
    destruct ((ev_type event =? SDL_KEYDOWN) && (keysym_sym event =? SDLK_g)).
    + unfold_host. run_m. simpl.
      destruct (imgui_render (display (host w))); simpl;
        on_resumed_loop ltac:(fun w1 =>
          destruct (IH w1) as (w' & tr & Hrun & Hk & Hc & Ha & Hd & Hs & Hw & Hn & Hz));
        rewrite Hrun; simpl;
        (eexists _, _; split; [reflexivity|]);
        (repeat split; auto; intros; right; right; right; auto).
    + simpl.
      on_resumed_loop ltac:(fun w1 =>
        destruct (IH w1) as (w' & tr & Hrun & Hk & Hc & Ha & Hd & Hs & Hw & Hn & Hz)).
      rewrite Hrun. simpl.
      eexists _, _. split; [reflexivity|].
      repeat split; auto; intros; right; auto.
Qed.

(** * The claims *)

(** C1: an id the export table resolves to a nonzero address takes the LLE
    path: the program counter of the calling thread's CPU becomes that
    address and the call returns, with no query of the NID registry and no
    native call among its effects, whatever the registry holds for the id.
    The registry is queried only after the export lookup has missed
    (returned 0), and the native function found there runs inside the
    call, on the caller's arguments. *)
Theorem call_import_export_first (w : World) (caller_cpu : CpuPtr) (nid : Z)
    (thread_id : SceUID) :
  (forall a t c,
     export_nids (kernel (host w)) !! nid = Some a -> a <> 0 ->
     threads (kernel (host w)) !! thread_id = Some t ->
     cpus w !! cpu t = Some c ->
     exists w' tr,
       call_import caller_cpu nid thread_id w = Done tt w' tr /\
       pc <$> (cpus w' !! cpu t) = Some a /\
       existsb is_native_call tr = false) /\
  (forall tr,
     trace_of (call_import caller_cpu nid thread_id w)
       = EvFindExport nid :: EvResolveImport nid :: tr ->
     resolve_export (kernel (host w)) nid = 0) /\
  (forall fn,
     resolve_export (kernel (host w)) nid = 0 ->
     resolve_import nid = Some fn ->
     call_import caller_cpu nid thread_id w =
     after [EvFindExport nid; EvResolveImport nid; EvCallImport nid caller_cpu thread_id]
           (fn caller_cpu thread_id w)).
Proof.
  split; [|split].
  - intros a t c He Ha Ht Hc. unfold call_import.
    rewrite (call_import_with_lle _ _ _ _ _ _ _ _ He Ha Ht Hc).
    eexists _, _. split; [reflexivity|]. split; [|reflexivity].
    simpl. now rewrite lookup_insert_eq.
  - intros tr Htr.
    destruct (Z.eq_dec (resolve_export (kernel (host w)) nid) 0) as [|Hnz]; [assumption|].
    exfalso. revert Htr. unfold_host. run_m.
    destruct (Z.eqb_spec (resolve_export (kernel (host w)) nid) 0) as [|_];
      [contradiction|].
    simpl. destruct (threads (kernel (host w)) !! thread_id) as [t|]; simpl.
    + destruct (cpus w !! cpu t); simpl; discriminate.
    + discriminate.
  - intros fn Hz Hfn. unfold call_import.
    rewrite (call_import_with_hle _ _ _ _ _ Hz).
    unfold_host. rewrite Hfn. simpl.
    destruct (fn caller_cpu thread_id w); reflexivity.
Qed.

(** C2 (amended): for an id registered in the export table at a nonzero
    address [a], the call returns with the machine changed in one place
    only: the CPU of the thread found under [thread_id] has its program
    counter set to [a].  The host state (kernel with both tables and every
    thread record, display, everything else), every other CPU, the rest of
    that CPU's context and the event queue are as before, and no native
    function is looked up or called. *)
Theorem call_import_export_only_frame (w : World) (caller_cpu : CpuPtr) (nid : Z)
    (thread_id : SceUID) (a : Address) (t : ThreadState) (c : CPUState) :
  export_nids (kernel (host w)) !! nid = Some a ->
  a <> 0 ->
  threads (kernel (host w)) !! thread_id = Some t ->
  cpus w !! cpu t = Some c ->
  exists w' tr,
    call_import caller_cpu nid thread_id w = Done tt w' tr /\
    cpus w' !! cpu t = Some (mkCPU a (cpu_rest c)) /\
    (forall other, other <> cpu t -> cpus w' !! other = cpus w !! other) /\
    host w' = host w /\
    sdl_events w' = sdl_events w /\
    existsb is_native_call tr = false.
Proof.
  intros He Ha Ht Hc. unfold call_import.
  rewrite (call_import_with_lle _ _ _ _ _ _ _ _ He Ha Ht Hc).
  eexists _, _. split; [reflexivity|]. simpl. repeat split.
  - apply lookup_insert_eq.
  - intros other Hne. apply lookup_insert_ne. congruence.
Qed.

(** C3: for an id the export table does not hold and the NID registry
    maps to [fn], the call is one run of [fn] on (host, caller's CPU,
    thread id) from the machine as found: the dispatcher's own effects
    come first and contain exactly one native call, and the call's
    outcome, final machine included, is the outcome of that run. *)
Theorem call_import_native_once (w : World) (caller_cpu : CpuPtr) (nid : Z)
    (thread_id : SceUID) (fn : NativeFn) :
  export_nids (kernel (host w)) !! nid = None ->
  resolve_import nid = Some fn ->
  exists pre,
    call_import caller_cpu nid thread_id w = after pre (fn caller_cpu thread_id w) /\
    List.filter is_import_call pre = [EvCallImport nid caller_cpu thread_id] /\
    existsb is_write_pc pre = false.
Proof.
  intros He Hfn. unfold call_import.
  rewrite (call_import_with_hle _ _ _ _ _ (resolve_export_miss _ _ He)).
  unfold_host. rewrite Hfn.
  exists [EvFindExport nid; EvResolveImport nid; EvCallImport nid caller_cpu thread_id].
  repeat split. destruct (fn caller_cpu thread_id w); reflexivity.
Qed.

(** C4: for an id neither table holds, the call returns, the machine is
    as it was, and the two lookups are its only effects: no program
    counter written, no native function called, nothing logged. *)
Theorem call_import_unresolved_noop (w : World) (caller_cpu : CpuPtr) (nid : Z)
    (thread_id : SceUID) :
  export_nids (kernel (host w)) !! nid = None ->
  resolve_import nid = None ->
  call_import caller_cpu nid thread_id w =
    Done tt w [EvFindExport nid; EvResolveImport nid] /\
  no_op (call_import caller_cpu nid thread_id) w.
Proof.
  intros He Hfn.
  assert (call_import caller_cpu nid thread_id w =
          Done tt w [EvFindExport nid; EvResolveImport nid]) as Hrun.
  { unfold call_import.
    rewrite (call_import_with_hle _ _ _ _ _ (resolve_export_miss _ _ He)).
    unfold_host. rewrite Hfn. reflexivity. }
  split; [exact Hrun|].
  exists tt, [EvFindExport nid; EvResolveImport nid]. split; [exact Hrun|reflexivity].
Qed.

(** C5: resuming a thread whose [to_do] is [wait] sets it to [run] while
    the thread's own mutex is held, and the write is directly followed by
    [notify_all] on that thread's condition variable; it is the only
    status write of the call. *)
Theorem resume_thread_wakes_waiter (w : World) (thread_id : SceUID) (t : ThreadState) :
  threads (kernel (host w)) !! thread_id = Some t ->
  to_do t = ThreadToDo.wait ->
  exists w' pre post,
    resume_thread thread_id w =
      Done tt w' (pre ++ EvSetToDo thread_id ThreadToDo.run
                      :: EvNotifyAll (SomethingToDo thread_id) :: post) /\
    threads (kernel (host w')) !! thread_id = Some (mkThread (cpu t) ThreadToDo.run) /\
    In (ThreadMutex thread_id) (held_after [] pre) /\
    existsb is_set_to_do pre = false /\
    existsb is_set_to_do post = false.
Proof.
  intros Ht Hw. rewrite (resume_thread_from_wait _ _ _ Ht Hw).
  exists (resumed w thread_id t),
         [EvLock KernelMutex; EvUnlock KernelMutex; EvLock (ThreadMutex thread_id)],
         [EvUnlock (ThreadMutex thread_id)].
  split; [reflexivity|]. split; [apply lookup_insert_eq|].
  split; [|split; reflexivity].
  cbn. left. reflexivity.
Qed.

(** C6 (amended): resuming a thread whose [to_do] is [run] or [stop]
    returns with the machine, that thread's status included, exactly as it
    was, so a second resume finds the same machine; the call takes and
    releases the two locks and still issues [notify_all] on the thread's
    condition variable. *)
Theorem resume_thread_not_waiting (w : World) (thread_id : SceUID) (t : ThreadState) :
  threads (kernel (host w)) !! thread_id = Some t ->
  to_do t = ThreadToDo.run \/ to_do t = ThreadToDo.stop ->
  resume_thread thread_id w =
    Done tt w
      [EvLock KernelMutex; EvUnlock KernelMutex; EvLock (ThreadMutex thread_id);
       EvNotifyAll (SomethingToDo thread_id); EvUnlock (ThreadMutex thread_id)].
Proof.
  intros Ht Hs. apply (resume_thread_otherwise _ _ _ Ht).
  destruct Hs as [Hs|Hs]; rewrite Hs; discriminate.
Qed.

(** C7: when a quit event is pending, [handle_events] returns false
    after a broadcast over the whole thread registry: the condition
    variable of every registered thread, so of every thread parked in
    [wait], is notified; no [to_do] is written, so a waiting thread's
    record still says [wait]; the display's abort flag is raised and its
    condition variable notified.  Unlike a resume, nothing here depends on
    a thread's status. *)
Theorem handle_events_quit_broadcast (w : World) (pre : list SDL_Event)
    (quit : SDL_Event) (post : list SDL_Event) :
  sdl_events w = pre ++ quit :: post ->
  Forall not_quit pre ->
  ev_type quit = SDL_QUIT ->
  exists w' tr,
    handle_events w = Done false w' tr /\
    (forall thread_id t,
       threads (kernel (host w)) !! thread_id = Some t ->
       In (EvNotifyAll (SomethingToDo thread_id)) tr /\
       threads (kernel (host w')) !! thread_id = Some t) /\
    (forall thread_id t,
       threads (kernel (host w)) !! thread_id = Some t ->
       to_do t = ThreadToDo.wait ->
       In (EvNotifyAll (SomethingToDo thread_id)) tr /\
       to_do <$> (threads (kernel (host w')) !! thread_id) = Some ThreadToDo.wait) /\
    existsb is_set_to_do tr = false /\
    abort (display (host w')) = true /\
    In (EvNotifyAll DisplayCondvar) tr.
Proof.
  intros Hq Hpre Hquit.
  destruct (poll_events_until_quit pre quit post Hpre Hquit w)
    as (w' & tr & Hrun & Hk & _ & Ha & _ & _ & Hwake & Hd & Hz).
  exists w', tr. unfold_host. run_m. rewrite Hq, Hrun. simpl.
  split; [reflexivity|]. rewrite Hk.
  split; [|split; [|split; [|split]]]; try assumption.
  - intros thread_id t Ht. split; [apply Hwake; eauto|assumption].
  - intros thread_id t Ht Hw. split; [apply Hwake; eauto|].
    rewrite Ht. simpl. congruence.
Qed.

(** C8 (amended): for an id neither table resolves, a trace line carrying
    the thread id and the numeric id is written when [LOG_IMPORT_CALLS] is
    enabled; the file fixes the flag to false, and [call_import] as
    compiled writes no log line. *)
Theorem call_import_unresolved_log_gate (w : World) (caller_cpu : CpuPtr) (nid : Z)
    (thread_id : SceUID) :
  export_nids (kernel (host w)) !! nid = None ->
  resolve_import nid = None ->
  call_import_with true caller_cpu nid thread_id w =
    Done tt w [EvFindExport nid;
               EvLogTrace (LogHleCall thread_id nid (import_name nid));
               EvResolveImport nid] /\
  call_import caller_cpu nid thread_id w =
    Done tt w [EvFindExport nid; EvResolveImport nid] /\
  existsb is_log (trace_of (call_import caller_cpu nid thread_id w)) = false.
Proof.
  intros He Hfn.
  pose proof (resolve_export_miss _ _ He) as Hz.
  assert (forall log, call_import_with log caller_cpu nid thread_id w =
                      Done tt w (EvFindExport nid :: log_hle log thread_id nid
                                   ++ [EvResolveImport nid])) as Hrun.
  { intros log. rewrite (call_import_with_hle _ _ _ _ _ Hz).
    unfold_host. rewrite Hfn. simpl. now rewrite app_nil_r. }
  split; [apply (Hrun true)|].
  unfold call_import. rewrite (Hrun LOG_IMPORT_CALLS). split; reflexivity.
Qed.

(** The export lookup is the first effect of [call_import]: nothing, and
    so no lock acquisition, comes before it. *)
Lemma call_import_lookup_first (log : bool) (w : World) (caller_cpu : CpuPtr)
    (nid : Z) (thread_id : SceUID) :
  exists tr,
    trace_of (call_import_with log caller_cpu nid thread_id w) = EvFindExport nid :: tr.
Proof.
  unfold_host. run_m.
  destruct (resolve_export (kernel (host w)) nid =? 0).
  - destruct log; simpl; destruct resolve_import as [fn|]; simpl;
      try (eexists; reflexivity);
      destruct (fn caller_cpu thread_id w); simpl; eexists; reflexivity.
  - destruct log; simpl;
      (destruct (threads (kernel (host w)) !! thread_id) as [t|]; simpl;
       [destruct (cpus w !! cpu t); simpl|]); eexists; reflexivity.
Qed.

(** C10: [resolve_export] returns 0 for an id the table does not hold and
    for an id registered at address 0 alike; [call_import] takes the LLE
    branch (registry lock, then the thread) only when the result is not 0,
    and on 0 does what it does for an unregistered id: it queries the NID
    registry and runs the native function if there is one, and otherwise
    returns with the machine, program counters included, untouched. *)
Theorem resolve_export_zero_is_not_found (w : World) (caller_cpu : CpuPtr) (nid : Z)
    (thread_id : SceUID) :
  (export_nids (kernel (host w)) !! nid = None ->
   resolve_export (kernel (host w)) nid = 0) /\
  (export_nids (kernel (host w)) !! nid = Some 0 ->
   resolve_export (kernel (host w)) nid = 0) /\
  (resolve_export (kernel (host w)) nid = 0 ->
   call_import caller_cpu nid thread_id w =
   after [EvFindExport nid; EvResolveImport nid] (hle_path caller_cpu nid thread_id w)) /\
  (resolve_export (kernel (host w)) nid = 0 ->
   resolve_import nid = None ->
   call_import caller_cpu nid thread_id w =
   Done tt w [EvFindExport nid; EvResolveImport nid]) /\
  (resolve_export (kernel (host w)) nid <> 0 ->
   exists tr,
     trace_of (call_import caller_cpu nid thread_id w) =
     EvFindExport nid :: EvLock KernelMutex :: tr).
Proof.
  split; [apply resolve_export_miss|].
  split; [apply resolve_export_hit|].
  split; [|split].
  - intros Hz. unfold call_import. now rewrite (call_import_with_hle _ _ _ _ _ Hz).
  - intros Hz Hfn. unfold call_import. rewrite (call_import_with_hle _ _ _ _ _ Hz).
    unfold_host. rewrite Hfn. reflexivity.
  - intros Hnz. unfold_host. run_m.
    destruct (Z.eqb_spec (resolve_export (kernel (host w)) nid) 0) as [|_];
      [contradiction|].
    simpl. destruct (threads (kernel (host w)) !! thread_id) as [t|]; simpl;
      [destruct (cpus w !! cpu t); simpl|]; eexists; reflexivity.
Qed.

End HostFacts.

(** * The claims on the sample machines *)

(** The two scenarios of the spec: a native call bumps the counter and
    leaves the export table alone; an export redirects the program counter. *)
Example sample_hle_call :
  call_import sample_nids sample_import_name 7 0xDEAD0001 1
    (sample_world ∅ ThreadToDo.run []) =
  Done tt
    (with_host (sample_world ∅ ThreadToDo.run [])
       (mkHost (mkKernel ∅ {[ 1 := mkThread 7 ThreadToDo.run ]} tt)
               (mkDisplay false false (960, 544) tt) false 1))
    [EvFindExport 0xDEAD0001; EvResolveImport 0xDEAD0001; EvCallImport 0xDEAD0001 7 1].
Proof. reflexivity. Qed.

Example sample_lle_call :
  call_import sample_nids sample_import_name 7 0x1234 1
    (sample_world {[ 0x1234 := 0x81000000 ]} ThreadToDo.run []) =
  Done tt
    (with_cpus (sample_world {[ 0x1234 := 0x81000000 ]} ThreadToDo.run [])
       {[ 7 := mkCPU 0x81000000 tt ]})
    [EvFindExport 0x1234; EvLock KernelMutex; EvUnlock KernelMutex;
     EvLock (ThreadMutex 1); EvWritePc 7 0x81000000; EvUnlock (ThreadMutex 1)].
Proof. vm_compute. reflexivity. Qed.

(** C9: on the sample machine with export [0x1234 -> 0x81000000],
    [call_import] looks the export table up as its first effect, with no
    mutex held; the kernel mutex is taken only afterwards, for the thread
    registry. *)
Theorem call_import_export_lookup_unlocked :
  let tr := trace_of (call_import sample_nids sample_import_name 7 0x1234 1
                        (sample_world {[ 0x1234 := 0x81000000 ]} ThreadToDo.run [])) in
  tr = [EvFindExport 0x1234; EvLock KernelMutex; EvUnlock KernelMutex;
        EvLock (ThreadMutex 1); EvWritePc 7 0x81000000; EvUnlock (ThreadMutex 1)] /\
  held_after [] (before_find_export tr) = [] /\
  ~ In KernelMutex (held_after [] (before_find_export tr)).
Proof.
  vm_compute. repeat split. intros [].
Qed.

Lemma call_import_export_first_witness :
  (exists w' tr,
     call_import sample_nids sample_import_name 7 0x1234 1
       (sample_world {[ 0x1234 := 0x81000000 ]} ThreadToDo.run []) = Done tt w' tr /\
     pc <$> (cpus w' !! 7) = Some 0x81000000 /\
     existsb is_native_call tr = false) /\
  resolve_export (kernel (host (sample_world ∅ ThreadToDo.run []))) 0xDEAD0001 = 0 /\
  call_import sample_nids sample_import_name 7 0xDEAD0001 1
    (sample_world ∅ ThreadToDo.run []) =
  after [EvFindExport 0xDEAD0001; EvResolveImport 0xDEAD0001;
         EvCallImport 0xDEAD0001 7 1]
        (bump_counter 7 1 (sample_world ∅ ThreadToDo.run [])).
Proof.
  split; [|split].
  - apply (proj1 (call_import_export_first sample_nids sample_import_name
                    (sample_world {[ 0x1234 := 0x81000000 ]} ThreadToDo.run [])
                    7 0x1234 1)
             0x81000000 (mkThread 7 ThreadToDo.run) (mkCPU 0x80000000 tt));
      [reflexivity | lia | reflexivity | reflexivity].
  - apply (proj1 (proj2 (call_import_export_first sample_nids sample_import_name
                           (sample_world ∅ ThreadToDo.run []) 7 0xDEAD0001 1))
             [EvCallImport 0xDEAD0001 7 1]).
    reflexivity.
  - apply (proj2 (proj2 (call_import_export_first sample_nids sample_import_name
                           (sample_world ∅ ThreadToDo.run []) 7 0xDEAD0001 1))
             bump_counter); reflexivity.
Defined.

(** An export registered at address 0: the call leaves the thread's
    program counter where it was, at [0x80000000], not at the registered
    address. *)
Lemma call_import_export_zero_keeps_pc :
  export_nids (kernel (host (sample_world {[ 0x1234 := 0 ]} ThreadToDo.run [])))
    !! 0x1234 = Some 0 /\
  resolve_import sample_nids 0x1234 = None /\
  ~ (exists w' tr,
       call_import sample_nids sample_import_name 7 0x1234 1
         (sample_world {[ 0x1234 := 0 ]} ThreadToDo.run []) = Done tt w' tr /\
       pc <$> (cpus w' !! 7) = Some 0).
Proof.
  split; [reflexivity|]. split; [reflexivity|].
  intros (w' & tr & Hrun & Hpc).
  vm_compute in Hrun. injection Hrun as Hw _. subst w'.
  vm_compute in Hpc. discriminate Hpc.
Qed.

Lemma call_import_export_only_frame_witness :
  exists w' tr,
    call_import sample_nids sample_import_name 7 0x1234 1
      (sample_world {[ 0x1234 := 0x81000000 ]} ThreadToDo.run []) = Done tt w' tr /\
    cpus w' !! 7 = Some (mkCPU 0x81000000 tt) /\
    (forall other, other <> 7 ->
       cpus w' !! other
       = cpus (sample_world {[ 0x1234 := 0x81000000 ]} ThreadToDo.run []) !! other) /\
    host w' = host (sample_world {[ 0x1234 := 0x81000000 ]} ThreadToDo.run []) /\
    sdl_events w' = [] /\
    existsb is_native_call tr = false.
Proof.
  apply (call_import_export_only_frame sample_nids sample_import_name
           (sample_world {[ 0x1234 := 0x81000000 ]} ThreadToDo.run [])
           7 0x1234 1 0x81000000 (mkThread 7 ThreadToDo.run) (mkCPU 0x80000000 tt));
    [reflexivity | lia | reflexivity | reflexivity].
Defined.

Lemma call_import_native_once_witness :
  exists pre,
    call_import sample_nids sample_import_name 7 0xDEAD0001 1
      (sample_world ∅ ThreadToDo.run []) =
    after pre (bump_counter 7 1 (sample_world ∅ ThreadToDo.run [])) /\
    List.filter is_import_call pre = [EvCallImport 0xDEAD0001 7 1] /\
    existsb is_write_pc pre = false.
Proof.
  apply (call_import_native_once sample_nids sample_import_name
           (sample_world ∅ ThreadToDo.run []) 7 0xDEAD0001 1 bump_counter);
    reflexivity.
Defined.

Lemma call_import_unresolved_noop_witness :
  call_import sample_nids sample_import_name 7 0xBEEF 1
    (sample_world ∅ ThreadToDo.run []) =
  Done tt (sample_world ∅ ThreadToDo.run []) [EvFindExport 0xBEEF; EvResolveImport 0xBEEF] /\
  no_op (call_import sample_nids sample_import_name 7 0xBEEF 1)
        (sample_world ∅ ThreadToDo.run []).
Proof.
  apply (call_import_unresolved_noop sample_nids sample_import_name
           (sample_world ∅ ThreadToDo.run []) 7 0xBEEF 1); reflexivity.
Defined.

Lemma resume_thread_wakes_waiter_witness :
  exists w' pre post,
    resume_thread 1 (sample_world ∅ ThreadToDo.wait []) =
      Done tt w' (pre ++ EvSetToDo 1 ThreadToDo.run
                      :: EvNotifyAll (SomethingToDo 1) :: post) /\
    threads (kernel (host w')) !! 1 = Some (mkThread 7 ThreadToDo.run) /\
    In (ThreadMutex 1) (held_after [] pre) /\
    existsb is_set_to_do pre = false /\
    existsb is_set_to_do post = false.
Proof.
  apply (resume_thread_wakes_waiter (sample_world ∅ ThreadToDo.wait []) 1
           (mkThread 7 ThreadToDo.wait)); reflexivity.
Defined.

(** Resuming a running thread is not a no-op: it notifies. *)
Lemma resume_thread_run_not_noop :
  threads (kernel (host (sample_world ∅ ThreadToDo.run []))) !! 1
    = Some (mkThread 7 ThreadToDo.run) /\
  ~ no_op (resume_thread 1) (sample_world ∅ ThreadToDo.run []).
Proof.
  split; [reflexivity|].
  intros (a & tr & Hrun & Hquiet).
  vm_compute in Hrun. injection Hrun as _ Htr. subst tr.
  vm_compute in Hquiet. discriminate Hquiet.
Qed.

Lemma resume_thread_not_waiting_witness :
  resume_thread 1 (sample_world ∅ ThreadToDo.stop []) =
  Done tt (sample_world ∅ ThreadToDo.stop [])
    [EvLock KernelMutex; EvUnlock KernelMutex; EvLock (ThreadMutex 1);
     EvNotifyAll (SomethingToDo 1); EvUnlock (ThreadMutex 1)].
Proof.
  apply (resume_thread_not_waiting (sample_world ∅ ThreadToDo.stop []) 1
           (mkThread 7 ThreadToDo.stop)); [reflexivity | right; reflexivity].
Defined.

Lemma handle_events_quit_broadcast_witness :
  exists w' tr,
    handle_events sample_set_dims 960 544 0 34
      (sample_world ∅ ThreadToDo.wait sample_queue) = Done false w' tr /\
    (forall thread_id t,
       threads (kernel (host (sample_world ∅ ThreadToDo.wait sample_queue))) !! thread_id
         = Some t ->
       In (EvNotifyAll (SomethingToDo thread_id)) tr /\
       threads (kernel (host w')) !! thread_id = Some t) /\
    (forall thread_id t,
       threads (kernel (host (sample_world ∅ ThreadToDo.wait sample_queue))) !! thread_id
         = Some t ->
       to_do t = ThreadToDo.wait ->
       In (EvNotifyAll (SomethingToDo thread_id)) tr /\
       to_do <$> (threads (kernel (host w')) !! thread_id) = Some ThreadToDo.wait) /\
    existsb is_set_to_do tr = false /\
    abort (display (host w')) = true /\
    In (EvNotifyAll DisplayCondvar) tr.
Proof.
  apply (handle_events_quit_broadcast sample_set_dims 960 544 0 34
           (sample_world ∅ ThreadToDo.wait sample_queue)
           [mkEvent SDL_KEYDOWN SDLK_g] (mkEvent SDL_QUIT 0) [mkEvent 0x400 0]).
  - reflexivity.
  - constructor; [|constructor]. unfold not_quit. simpl. unfold SDL_KEYDOWN, SDL_QUIT. lia.
  - reflexivity.
Defined.

Example sample_quit_run :
  handle_events sample_set_dims 960 544 0 34
    (sample_world ∅ ThreadToDo.wait sample_queue) =
  Done false
    (mkWorld
       (mkHost (mkKernel ∅ {[ 1 := mkThread 7 ThreadToDo.wait ]} tt)
               (mkDisplay true true (960, 578) tt) true 0)
       {[ 7 := mkCPU 0x80000000 tt ]}
       [mkEvent 0x400 0])
    [EvImGuiProcess (mkEvent SDL_KEYDOWN SDLK_g);
     EvSetWindowResizable true; EvSetWindowSize 960 578;
     EvImGuiProcess (mkEvent SDL_QUIT 0);
     EvLock KernelMutex; EvNotifyAll (SomethingToDo 1); EvUnlock KernelMutex;
     EvDisplayQueueAbort; EvNotifyAll DisplayCondvar].
Proof. vm_compute. reflexivity. Qed.

(** With the flag as compiled, a call on an id neither table resolves
    writes no log line at all. *)
Lemma call_import_unresolved_silent :
  export_nids (kernel (host (sample_world ∅ ThreadToDo.run []))) !! 0xBEEF = None /\
  resolve_import sample_nids 0xBEEF = None /\
  ~ (exists r,
       In (EvLogTrace r)
          (trace_of (call_import sample_nids sample_import_name 7 0xBEEF 1
                       (sample_world ∅ ThreadToDo.run [])))).
Proof.
  split; [reflexivity|]. split; [reflexivity|].
  intros (r & Hin). vm_compute in Hin.
  destruct Hin as [H|[H|[]]]; discriminate H.
Qed.

Lemma call_import_unresolved_log_gate_witness :
  call_import_with sample_nids sample_import_name true 7 0xBEEF 1
    (sample_world ∅ ThreadToDo.run []) =
    Done tt (sample_world ∅ ThreadToDo.run [])
      [EvFindExport 0xBEEF;
       EvLogTrace (LogHleCall 1 0xBEEF (sample_import_name 0xBEEF));
       EvResolveImport 0xBEEF] /\
  call_import sample_nids sample_import_name 7 0xBEEF 1
    (sample_world ∅ ThreadToDo.run []) =
    Done tt (sample_world ∅ ThreadToDo.run [])
      [EvFindExport 0xBEEF; EvResolveImport 0xBEEF] /\
  existsb is_log
    (trace_of (call_import sample_nids sample_import_name 7 0xBEEF 1
                 (sample_world ∅ ThreadToDo.run []))) = false.
Proof.
  apply (call_import_unresolved_log_gate sample_nids sample_import_name
           (sample_world ∅ ThreadToDo.run []) 7 0xBEEF 1); reflexivity.
Defined.

Lemma resolve_export_zero_is_not_found_witness :
  resolve_export (kernel (host (sample_world ∅ ThreadToDo.run []))) 0x1234 = 0 /\
  resolve_export (kernel (host (sample_world {[ 0x1234 := 0 ]} ThreadToDo.run []))) 0x1234
    = 0 /\
  call_import sample_nids sample_import_name 7 0x1234 1
    (sample_world {[ 0x1234 := 0 ]} ThreadToDo.run []) =
  Done tt (sample_world {[ 0x1234 := 0 ]} ThreadToDo.run [])
    [EvFindExport 0x1234; EvResolveImport 0x1234] /\
  call_import sample_nids sample_import_name 7 0xDEAD0001 1
    (sample_world {[ 0xDEAD0001 := 0 ]} ThreadToDo.run []) =
  after [EvFindExport 0xDEAD0001; EvResolveImport 0xDEAD0001]
    (hle_path sample_nids 7 0xDEAD0001 1
       (sample_world {[ 0xDEAD0001 := 0 ]} ThreadToDo.run [])) /\
  exists tr,
    trace_of (call_import sample_nids sample_import_name 7 0x1234 1
                (sample_world {[ 0x1234 := 0x81000000 ]} ThreadToDo.run [])) =
    EvFindExport 0x1234 :: EvLock KernelMutex :: tr.
Proof.
  pose proof (resolve_export_zero_is_not_found sample_nids sample_import_name
                (sample_world ∅ ThreadToDo.run []) 7 0x1234 1)
    as (Hmiss & _).
  pose proof (resolve_export_zero_is_not_found sample_nids sample_import_name
                (sample_world {[ 0x1234 := 0 ]} ThreadToDo.run []) 7 0x1234 1)
    as (_ & Hzero & _ & Hnoop & _).
  pose proof (resolve_export_zero_is_not_found sample_nids sample_import_name
                (sample_world {[ 0xDEAD0001 := 0 ]} ThreadToDo.run []) 7 0xDEAD0001 1)
    as (_ & _ & Hhle & _).
  pose proof (resolve_export_zero_is_not_found sample_nids sample_import_name
                (sample_world {[ 0x1234 := 0x81000000 ]} ThreadToDo.run []) 7 0x1234 1)
    as (_ & _ & _ & _ & Hlle).
  split; [|split; [|split; [|split]]].
  - apply Hmiss. reflexivity.
  - apply Hzero. reflexivity.
  - apply Hnoop; reflexivity.
  - apply Hhle. reflexivity.
  - apply Hlle. vm_compute. discriminate.
Defined.

(** * Further properties of the dispatcher and of resume *)

Section DispatchFacts.

Context {CpuRest KernelRest DisplayRest HostRest : Type}.

Local Abbreviation World := (@World CpuRest KernelRest DisplayRest HostRest).
Local Abbreviation NativeFn := (@NativeFn CpuRest KernelRest DisplayRest HostRest).
Local Abbreviation CPUState := (@CPUState CpuRest).

Variable nids : list (Z * NativeFn).
Variable import_name : Z -> string.

Ltac unfold_dispatch :=
  unfold call_import, call_import_with, hle_path, log_hle, log_lle, resume_thread.

Ltac run_dispatch :=
  cbv [mbind M_bind mret M_ret emit get put crash after lock_and_find write_pc
       set_to_do];
  cbn [app].

Local Abbreviation resolve_import := (resolve_import nids).
Local Abbreviation call_import_with := (call_import_with nids import_name).
Local Abbreviation call_import := (call_import nids import_name).

(** ** The NID switch *)

(** [resolve_import] returns the empty function exactly for the NIDs the
    table does not list. *)
Theorem resolve_import_none_iff (nid : Z) :
  resolve_import nid = None <-> ~ In nid (map fst nids).
Proof.
  clear import_name. unfold resolve_import.
  induction nids as [|[n fn] table IH]; simpl.
  - tauto.
  - destruct (Z.eqb_spec n nid) as [->|Hne].
    + split; [discriminate|]. intros H. exfalso. apply H. now left.
    + rewrite IH. split.
      * intros H [E|Hin]; [contradiction|]. now apply H.
      * intros H Hin. apply H. now right.
Qed.

(** With distinct case labels, [resolve_import] returns [fn] exactly when
    the table pairs the NID with [fn]. *)
Theorem resolve_import_some_iff (nid : Z) (fn : NativeFn) :
  List.NoDup (map fst nids) ->
  (resolve_import nid = Some fn <-> In (nid, fn) nids).
Proof.
  clear import_name. unfold resolve_import.
  induction nids as [|[n fn0] table IH]; simpl; intros Hnd.
  - split; [discriminate|tauto].
  - apply List.NoDup_cons_iff in Hnd as [Hfresh Hnd].
    destruct (Z.eqb_spec n nid) as [->|Hne].
    + split.
      * intros E. left. congruence.
      * intros [E|Hin]; [congruence|].
        exfalso. apply Hfresh. apply in_map_iff. now exists (nid, fn).
    + rewrite (IH Hnd). split.
      * intros Hin. now right.
      * intros [E|Hin]; [congruence|assumption].
Qed.

(** ** The LLE branch *)

(** On an export hit the [cpu] argument plays no part: the program
    counter written is that of the CPU owned by the thread looked up. *)
Theorem call_import_lle_ignores_cpu (w : World) (cpu1 cpu2 : CpuPtr) (nid : Z)
    (thread_id : SceUID) :
  resolve_export (kernel (host w)) nid <> 0 ->
  call_import cpu1 nid thread_id w = call_import cpu2 nid thread_id w.
Proof.
  intros Hnz. unfold_dispatch. run_dispatch.
  destruct (Z.eqb_spec (resolve_export (kernel (host w)) nid) 0) as [|_];
    [contradiction|reflexivity].
Qed.

(** On an export hit with a thread id the registry does not hold, the call
    stops at the registry lookup: no program counter is written and the
    NID registry is not tried instead. *)
Theorem call_import_lle_unknown_thread (w : World) (caller_cpu : CpuPtr) (nid : Z)
    (thread_id : SceUID) :
  resolve_export (kernel (host w)) nid <> 0 ->
  threads (kernel (host w)) !! thread_id = None ->
  call_import caller_cpu nid thread_id w =
  Crash (UnknownThreadId thread_id) [EvFindExport nid; EvLock KernelMutex].
Proof.
  intros Hnz Ht. unfold_dispatch. run_dispatch.
  destruct (Z.eqb_spec (resolve_export (kernel (host w)) nid) 0) as [|_];
    [contradiction|].
  simpl. rewrite Ht. reflexivity.
Qed.

(** Repeating an LLE call changes nothing further: the second call
    returns the machine the first one left, with the same effects. *)
Theorem call_import_lle_twice (w : World) (caller_cpu : CpuPtr) (nid : Z)
    (thread_id : SceUID) (a : Address) (t : ThreadState) (c : CPUState) :
  export_nids (kernel (host w)) !! nid = Some a ->
  a <> 0 ->
  threads (kernel (host w)) !! thread_id = Some t ->
  cpus w !! cpu t = Some c ->
  exists w1 tr,
    call_import caller_cpu nid thread_id w = Done tt w1 tr /\
    call_import caller_cpu nid thread_id w1 = Done tt w1 tr.
Proof.
  intros He Ha Ht Hc. unfold call_import.
  rewrite (call_import_with_lle nids import_name LOG_IMPORT_CALLS caller_cpu nid
             thread_id w a t c He Ha Ht Hc).
  eexists _, _. split; [reflexivity|].
  rewrite (call_import_with_lle nids import_name _ _ _ _ _ a t (mkCPU a (cpu_rest c)));
    try assumption.
  - simpl. unfold with_cpus. simpl. now rewrite insert_insert_eq.
  - simpl. apply lookup_insert_eq.
Qed.

Lemma release_held (m : Mutex) : remove Mutex_eq_dec m [m] = [].
Proof. simpl. destruct (Mutex_eq_dec m m); [reflexivity|contradiction]. Qed.

(** On the LLE branch the kernel mutex is released before the thread's
    mutex is taken, so the call never holds two mutexes at once, and it
    holds none when it returns. *)
Theorem call_import_lle_locks (w : World) (caller_cpu : CpuPtr) (nid : Z)
    (thread_id : SceUID) (a : Address) (t : ThreadState) (c : CPUState) :
  export_nids (kernel (host w)) !! nid = Some a ->
  a <> 0 ->
  threads (kernel (host w)) !! thread_id = Some t ->
  cpus w !! cpu t = Some c ->
  let tr := trace_of (call_import caller_cpu nid thread_id w) in
  max_held [] tr = 1%nat /\ held_after [] tr = [].
Proof.
  intros He Ha Ht Hc. unfold call_import.
  rewrite (call_import_with_lle nids import_name LOG_IMPORT_CALLS caller_cpu nid
             thread_id w a t c He Ha Ht Hc).
  cbn -[remove]. rewrite !release_held. split; reflexivity.
Qed.

(** ** Logging *)

(** Turning [LOG_IMPORT_CALLS] on changes nothing but the log: on every
    input the outcome, final machine included, is the same once the log
    lines are left out. *)
Theorem call_import_logging_transparent (w : World) (caller_cpu : CpuPtr) (nid : Z)
    (thread_id : SceUID) :
  without_logs (call_import_with true caller_cpu nid thread_id w) =
  without_logs (call_import_with false caller_cpu nid thread_id w).
Proof.
  unfold_dispatch. run_dispatch.
  destruct (resolve_export (kernel (host w)) nid =? 0); simpl.
  - destruct resolve_import as [fn|]; simpl; [|reflexivity].
    destruct (fn caller_cpu thread_id w); reflexivity.
  - destruct (threads (kernel (host w)) !! thread_id) as [t|]; simpl; [|reflexivity].
    destruct (cpus w !! cpu t); reflexivity.
Qed.

(** With [LOG_IMPORT_CALLS] on, the line is written right after the export
    lookup, before any lock or native call, on both branches; it carries
    the thread id and the NID, and on the LLE branch the resolved
    address. *)
Theorem call_import_logs_second (w : World) (caller_cpu : CpuPtr) (nid : Z)
    (thread_id : SceUID) :
  exists tr,
    trace_of (call_import_with true caller_cpu nid thread_id w) =
    EvFindExport nid ::
    EvLogTrace
      (if resolve_export (kernel (host w)) nid =? 0
       then LogHleCall thread_id nid (import_name nid)
       else LogLleCall thread_id nid (resolve_export (kernel (host w)) nid)
              (import_name nid)) :: tr.
Proof.
  unfold_dispatch. run_dispatch.
  destruct (resolve_export (kernel (host w)) nid =? 0); simpl.
  - destruct resolve_import as [fn|]; simpl; [|eexists; reflexivity].
    destruct (fn caller_cpu thread_id w); simpl; eexists; reflexivity.
  - destruct (threads (kernel (host w)) !! thread_id) as [t|]; simpl;
      [destruct (cpus w !! cpu t); simpl|]; eexists; reflexivity.
Qed.

(** ** Resume *)

(** Resume touches one field of one record: every other thread, the
    export table, the CPUs, the display and the event queue are as
    before, the thread keeps its CPU, and its status afterwards is [run]
    if it was [wait] and what it was otherwise; it is never [wait]. *)
Theorem resume_thread_frame (w : World) (thread_id : SceUID) (t : ThreadState) :
  threads (kernel (host w)) !! thread_id = Some t ->
  exists w' tr,
    resume_thread thread_id w = Done tt w' tr /\
    threads (kernel (host w')) !! thread_id =
      Some (mkThread (cpu t)
              (if ThreadToDo.eqb (to_do t) ThreadToDo.wait
               then ThreadToDo.run else to_do t)) /\
    (to_do <$> threads (kernel (host w')) !! thread_id) <> Some ThreadToDo.wait /\
    (forall other, other <> thread_id ->
       threads (kernel (host w')) !! other = threads (kernel (host w)) !! other) /\
    export_nids (kernel (host w')) = export_nids (kernel (host w)) /\
    kernel_rest (kernel (host w')) = kernel_rest (kernel (host w)) /\
    display (host w') = display (host w) /\
    host_rest (host w') = host_rest (host w) /\
    cpus w' = cpus w /\
    sdl_events w' = sdl_events w.
Proof.
  intros Ht. destruct (ThreadToDo.eqb (to_do t) ThreadToDo.wait) eqn:Hw.
  - assert (to_do t = ThreadToDo.wait) as Hwait by (destruct (to_do t); easy).
    rewrite (resume_thread_from_wait _ _ _ Ht Hwait).
    eexists _, _. split; [reflexivity|]. simpl.
    rewrite lookup_insert_eq. repeat split; try discriminate.
    intros other Hne. now apply lookup_insert_ne.
  - assert (to_do t <> ThreadToDo.wait) as Hnw by (intros E; rewrite E in Hw; easy).
    rewrite (resume_thread_otherwise _ _ _ Ht Hnw).
    eexists _, _. split; [reflexivity|]. rewrite Ht. simpl.
    repeat split.
    + now destruct t.
    + congruence.
Qed.

(** Whatever the thread's status, resume notifies its condition variable
    exactly once, notifies no other, holds at most one mutex at a time
    (the kernel mutex is released before the thread's is taken), and
    holds none on return. *)
Theorem resume_thread_locks_and_notifies (w : World) (thread_id : SceUID)
    (t : ThreadState) :
  threads (kernel (host w)) !! thread_id = Some t ->
  let tr := trace_of (resume_thread thread_id w) in
  List.filter is_notify_all tr = [EvNotifyAll (SomethingToDo thread_id)] /\
  max_held [] tr = 1%nat /\
  held_after [] tr = [].
Proof.
  intros Ht. destruct (ThreadToDo.eqb (to_do t) ThreadToDo.wait) eqn:Hw.
  - assert (to_do t = ThreadToDo.wait) as Hwait by (destruct (to_do t); easy).
    rewrite (resume_thread_from_wait _ _ _ Ht Hwait).
    cbn -[remove]. rewrite !release_held. repeat split.
  - assert (to_do t <> ThreadToDo.wait) as Hnw by (intros E; rewrite E in Hw; easy).
    rewrite (resume_thread_otherwise _ _ _ Ht Hnw).
    cbn -[remove]. rewrite !release_held. repeat split.
Qed.

End DispatchFacts.

(** * The event loop *)

Section LoopFacts.

Context {CpuRest KernelRest DisplayRest HostRest : Type}.

Local Abbreviation World := (@World CpuRest KernelRest DisplayRest HostRest).

Variable set_dims : @DisplayState DisplayRest -> Z -> Z -> Z -> Z -> @DisplayState DisplayRest.
Variables DEFAULT_RES_WIDTH DEFAULT_RES_HEIGHT : Z.
Variables WINDOW_BORDER_WIDTH WINDOW_BORDER_HEIGHT : Z.

Ltac run_loop :=
  cbv [mbind M_bind mret M_ret emit get put crash after modify_display];
  cbn [app].

Local Abbreviation poll_events :=
  (poll_events set_dims DEFAULT_RES_WIDTH DEFAULT_RES_HEIGHT
               WINDOW_BORDER_WIDTH WINDOW_BORDER_HEIGHT).
Local Abbreviation handle_events :=
  (handle_events set_dims DEFAULT_RES_WIDTH DEFAULT_RES_HEIGHT
                 WINDOW_BORDER_WIDTH WINDOW_BORDER_HEIGHT).
Local Abbreviation toggle_gui :=
  (toggle_gui set_dims DEFAULT_RES_WIDTH DEFAULT_RES_HEIGHT
              WINDOW_BORDER_WIDTH WINDOW_BORDER_HEIGHT).
Local Abbreviation toggled_display :=
  (toggled_display set_dims DEFAULT_RES_WIDTH DEFAULT_RES_HEIGHT
                   WINDOW_BORDER_WIDTH WINDOW_BORDER_HEIGHT).
Local Abbreviation toggled :=
  (toggled set_dims DEFAULT_RES_WIDTH DEFAULT_RES_HEIGHT
           WINDOW_BORDER_WIDTH WINDOW_BORDER_HEIGHT).
Local Abbreviation toggle_trace :=
  (toggle_trace set_dims DEFAULT_RES_WIDTH DEFAULT_RES_HEIGHT
                WINDOW_BORDER_WIDTH WINDOW_BORDER_HEIGHT).
Local Abbreviation after_event :=
  (after_event set_dims DEFAULT_RES_WIDTH DEFAULT_RES_HEIGHT
               WINDOW_BORDER_WIDTH WINDOW_BORDER_HEIGHT).
Local Abbreviation event_trace :=
  (event_trace set_dims DEFAULT_RES_WIDTH DEFAULT_RES_HEIGHT
               WINDOW_BORDER_WIDTH WINDOW_BORDER_HEIGHT).

Lemma toggle_gui_run (w : World) :
  toggle_gui w = Done tt (toggled w) (toggle_trace (display (host w))).
Proof.
  unfold toggle_gui, toggled, toggle_trace, toggled_display. run_loop. simpl.
  destruct (imgui_render (display (host w))); reflexivity.
Qed.

Lemma poll_events_step (event : SDL_Event) (rest : list SDL_Event) (w : World) :
  ev_type event <> SDL_QUIT ->
  poll_events (event :: rest) w =
  after (event_trace event w) (poll_events rest (after_event event rest w)).
Proof.
  intros Hnq. unfold after_event, event_trace. simpl. run_loop.
  destruct (Z.eqb_spec (ev_type event) SDL_QUIT) as [|_]; [contradiction|].
  fold (is_g_press event). destruct (is_g_press event).
  - rewrite toggle_gui_run. simpl.
    destruct (poll_events rest _); reflexivity.
  - simpl. destruct (poll_events rest _); reflexivity.
Qed.

Lemma after_event_frame (event : SDL_Event) (rest : list SDL_Event) (w : World) :
  sdl_events (after_event event rest w) = rest /\
  kernel (host (after_event event rest w)) = kernel (host w) /\
  cpus (after_event event rest w) = cpus w /\
  display_queue_aborted (host (after_event event rest w))
    = display_queue_aborted (host w) /\
  host_rest (host (after_event event rest w)) = host_rest (host w).
Proof. unfold after_event. destruct (is_g_press event); repeat split. Qed.

Lemma event_trace_shape (event : SDL_Event) (w : World) :
  List.filter is_imgui (event_trace event w) = [EvImGuiProcess event] /\
  existsb is_notify_all (event_trace event w) = false /\
  existsb is_lock (event_trace event w) = false.
Proof. unfold event_trace. destruct (is_g_press event); repeat split. Qed.

Lemma poll_events_without_quit (queue : list SDL_Event) :
  Forall not_quit queue ->
  forall w : World,
  sdl_events w = queue ->
  exists w' tr,
    poll_events queue w = Done true w' tr /\
    sdl_events w' = [] /\
    kernel (host w') = kernel (host w) /\
    cpus w' = cpus w /\
    display_queue_aborted (host w') = display_queue_aborted (host w) /\
    host_rest (host w') = host_rest (host w) /\
    List.filter is_imgui tr = map EvImGuiProcess queue /\
    existsb is_notify_all tr = false /\
    existsb is_lock tr = false.
Proof.
  induction 1 as [|event rest Hev _ IH]; intros w Hq.
  - exists w, []. repeat split. exact Hq.
  - rewrite (poll_events_step _ _ _ Hev).
    destruct (after_event_frame event rest w) as (Fq & Fk & Fc & Fa & Fr).
    destruct (event_trace_shape event w) as (Si & Sn & Sl).
    set (et := event_trace event w) in *. clearbody et.
    destruct (IH _ Fq) as (w' & tr & Hrun & Hq' & Hk & Hc & Ha & Hr & Hi & Hn & Hl).
    rewrite Hrun. simpl after.
    eexists _, _. split; [reflexivity|].
    rewrite List.filter_app, !existsb_app, Si, Sn, Sl, Hi, Hn, Hl.
    repeat split; congruence.
Qed.

(** With no quit event pending, [handle_events] returns true with the
    queue drained; every event was handed to ImGui, once and in order;
    kernel, CPUs and the display-queue flag are untouched, no mutex is
    taken and no condition variable notified. *)
Theorem handle_events_without_quit (w : World) :
  Forall not_quit (sdl_events w) ->
  exists w' tr,
    handle_events w = Done true w' tr /\
    sdl_events w' = [] /\
    kernel (host w') = kernel (host w) /\
    cpus w' = cpus w /\
    display_queue_aborted (host w') = display_queue_aborted (host w) /\
    host_rest (host w') = host_rest (host w) /\
    List.filter is_imgui tr = map EvImGuiProcess (sdl_events w) /\
    existsb is_notify_all tr = false /\
    existsb is_lock tr = false.
Proof.
  intros Hnq.
  destruct (poll_events_without_quit _ Hnq w eq_refl) as (w' & tr & Hrun & Hrest).
  exists w', tr. split; [|exact Hrest].
  unfold handle_events. run_loop. rewrite Hrun. simpl. reflexivity.
Qed.

(** Events that are neither a quit nor a [g] key press are only forwarded
    to ImGui: the call empties the queue and changes nothing else. *)
Theorem handle_events_plain (w : World) :
  Forall plain_event (sdl_events w) ->
  handle_events w =
  Done true (with_sdl_events w []) (map EvImGuiProcess (sdl_events w)).
Proof.
  intros Hplain.
  assert (forall queue, Forall plain_event queue -> forall w0 : World,
            sdl_events w0 = queue ->
            poll_events queue w0 =
            Done true (with_sdl_events w0 []) (map EvImGuiProcess queue)) as Hloop.
  { induction 1 as [|event rest [Hnq Hg] _ IH]; intros w0 Hq.
    - destruct w0 as [h c q]. simpl in Hq. subst q. reflexivity.
    - rewrite (poll_events_step _ _ _ Hnq).
      unfold after_event, event_trace. rewrite Hg.
      rewrite (IH (with_sdl_events w0 rest) eq_refl). reflexivity. }
  unfold handle_events. run_loop. rewrite (Hloop _ Hplain w eq_refl).
  simpl. reflexivity.
Qed.

Lemma quit_trace_not_imgui (w : World) :
  List.filter is_imgui (quit_trace w) = [].
Proof.
  unfold quit_trace. simpl. rewrite List.filter_app. simpl.
  rewrite app_nil_r. induction (map fst _) as [|x l IHl]; simpl; auto.
Qed.

(** A quit event ends the loop at once: it is itself handed to ImGui,
    like every event before it; the events behind it are neither handed
    over nor removed from the queue, and the display queue is aborted. *)
Theorem handle_events_quit_leaves_rest (w : World) (pre : list SDL_Event)
    (quit : SDL_Event) (post : list SDL_Event) :
  sdl_events w = pre ++ quit :: post ->
  Forall not_quit pre ->
  ev_type quit = SDL_QUIT ->
  exists w' tr,
    handle_events w = Done false w' tr /\
    sdl_events w' = post /\
    List.filter is_imgui tr = map EvImGuiProcess (pre ++ [quit]) /\
    display_queue_aborted (host w') = true.
Proof.
  intros Hq Hpre Hquit.
  assert (forall w0 : World, exists w' tr,
            poll_events (pre ++ quit :: post) w0 = Done false w' tr /\
            sdl_events w' = post /\
            List.filter is_imgui tr = map EvImGuiProcess (pre ++ [quit]) /\
            display_queue_aborted (host w') = true) as Hloop.
  { clear Hq. induction Hpre as [|event pre Hev _ IH]; intros w0.
    - cbn [app]. rewrite (poll_events_quit set_dims DEFAULT_RES_WIDTH DEFAULT_RES_HEIGHT
                 WINDOW_BORDER_WIDTH WINDOW_BORDER_HEIGHT quit post w0 Hquit).
      eexists _, _. split; [reflexivity|].
      split; [reflexivity|]. split; [|reflexivity].
      change (List.filter is_imgui (EvImGuiProcess quit :: quit_trace w0))
        with (EvImGuiProcess quit :: List.filter is_imgui (quit_trace w0)).
      now rewrite quit_trace_not_imgui.
    - cbn [app]. rewrite (poll_events_step _ _ _ Hev).
      destruct (event_trace_shape event w0) as (Si & _ & _).
      set (et := event_trace event w0) in *. clearbody et.
      destruct (IH (after_event event (pre ++ quit :: post) w0))
        as (w' & tr & Hrun & Hs & Hi & Ha).
      rewrite Hrun. simpl after.
      eexists _, _. split; [reflexivity|].
      rewrite List.filter_app, Si, Hi. repeat split; assumption. }
  destruct (Hloop w) as (w' & tr & Hrun & Hrest).
  exists w', tr. split; [|exact Hrest].
  unfold handle_events. run_loop. rewrite Hq, Hrun. simpl. reflexivity.
Qed.

(** If [set_dims] leaves [imgui_render] alone, the flag after the call is
    the flag before it, negated once per [g] key press in the queue. *)
Theorem handle_events_toggle_parity (w : World) :
  (forall d a b c e, imgui_render (set_dims d a b c e) = imgui_render d) ->
  Forall not_quit (sdl_events w) ->
  exists w' tr,
    handle_events w = Done true w' tr /\
    imgui_render (display (host w')) =
    xorb (Nat.odd (length (List.filter is_g_press (sdl_events w))))
         (imgui_render (display (host w))).
Proof.
  intros Hdims Hnq.
  assert (forall queue, Forall not_quit queue -> forall w0 : World, exists w' tr,
            poll_events queue w0 = Done true w' tr /\
            imgui_render (display (host w')) =
            xorb (Nat.odd (length (List.filter is_g_press queue)))
                 (imgui_render (display (host w0)))) as Hloop.
  { induction 1 as [|event rest Hev _ IH]; intros w0.
    - exists w0, []. split; reflexivity.
    - rewrite (poll_events_step _ _ _ Hev).
      destruct (IH (after_event event rest w0)) as (w' & tr & Hrun & Hflag).
      rewrite Hrun. simpl after. eexists _, _. split; [reflexivity|].
      rewrite Hflag. unfold after_event. simpl List.filter.
      destruct (is_g_press event); [|reflexivity].
      simpl length. rewrite Nat.odd_succ, <- Nat.negb_odd.
      unfold toggled, toggled_display. simpl.
      destruct (imgui_render (display (host w0))); rewrite Hdims; simpl;
        destruct (Nat.odd _); reflexivity. }
  destruct (Hloop _ Hnq w) as (w' & tr & Hrun & Hflag).
  exists w', tr. split; [|exact Hflag].
  unfold handle_events. run_loop. rewrite Hrun. simpl. reflexivity.
Qed.

End LoopFacts.

(** * Start-up *)

Section ScanFacts.

Context {Window GLContext Mem Audio IoRest DisplayRest Buffer SfoFile : Type}.

Local Abbreviation BootHost :=
  (@HostState Z DisplayRest (@HostFields Window GLContext Mem Audio IoRest)).

Variable read_file_from_disk : string -> BootHost -> option Buffer.
Variable load_sfo : Buffer -> SfoFile.
Variable find_data : string -> SfoFile -> string -> string.

Local Abbreviation scan_entry := (scan_entry read_file_from_disk load_sfo find_data).
Local Abbreviation scan_dir := (scan_dir read_file_from_disk load_sfo find_data).

Lemma scanned_not_dot (d_name : string) :
  scanned d_name = true <-> d_name <> "."%string /\ d_name <> ".."%string.
Proof.
  unfold scanned.
  destruct (String.eqb_spec d_name "."); destruct (String.eqb_spec d_name "..");
    simpl; split; try tauto; try discriminate; intros [? ?]; contradiction.
Qed.

Lemma scan_entry_skipped (d_name : string) (state : BootHost) :
  scanned d_name = false -> scan_entry d_name state = state.
Proof. unfold scan_entry, scanned. now intros ->. Qed.

Lemma scan_dir_app (front back : list string) (state : BootHost) :
  scan_dir (front ++ back) state = scan_dir back (scan_dir front state).
Proof. revert state. induction front as [|d front IH]; simpl; auto. Qed.

(** What one round adds to the two vectors. *)
Lemma scan_entry_appends (d_name : string) (state : BootHost) :
  exists ids ts,
    title_ids (host_rest (scan_entry d_name state)) = title_ids (host_rest state) ++ ids /\
    titles (host_rest (scan_entry d_name state)) = titles (host_rest state) ++ ts /\
    length ids = length ts /\
    (forall id, In id ids -> id = d_name /\ scanned d_name = true).
Proof.
  unfold scan_entry. fold (scanned d_name).
  destruct (scanned d_name) eqn:Hs.
  - destruct (read_file_from_disk _ _) as [params|]; simpl.
    + eexists [d_name], [_]. repeat split; destruct H as [<-|[]]; reflexivity.
    + exists [], []. rewrite !app_nil_r. repeat split; destruct H.
  - exists [], []. rewrite !app_nil_r. repeat split; destruct H.
Qed.

(** The scan only appends, and appends to both vectors together: what
    was listed before stays in place, the two vectors grow by the same
    number of elements, and every id added is an entry of the directory
    other than [.] and [..]. *)
Theorem scan_dir_appends (entries : list string) (state : BootHost) :
  exists ids ts,
    title_ids (host_rest (scan_dir entries state)) = title_ids (host_rest state) ++ ids /\
    titles (host_rest (scan_dir entries state)) = titles (host_rest state) ++ ts /\
    length ids = length ts /\
    (forall id, In id ids ->
       In id entries /\ id <> "."%string /\ id <> ".."%string).
Proof.
  revert state. induction entries as [|d entries IH]; intros state; simpl.
  - exists [], []. rewrite !app_nil_r. repeat split; destruct H.
  - destruct (scan_entry_appends d state) as (ids1 & ts1 & Hi1 & Ht1 & Hl1 & Hin1).
    destruct (IH (scan_entry d state)) as (ids2 & ts2 & Hi2 & Ht2 & Hl2 & Hin2).
    exists (ids1 ++ ids2), (ts1 ++ ts2).
    rewrite Hi2, Ht2, Hi1, Ht1, <- !app_assoc, !length_app, Hl1, Hl2.
    repeat split; apply in_app_or in H as [H|H].
    + left. symmetry. now apply Hin1.
    + right. now apply Hin2.
    + destruct (Hin1 _ H) as [-> Hs]. now apply scanned_not_dot.
    + now apply Hin2.
    + destruct (Hin1 _ H) as [-> Hs]. now apply scanned_not_dot.
    + now apply Hin2.
Qed.

(** [.] and [..] leave no trace: the scan of a listing is the scan of
    the listing without them. *)
Theorem scan_dir_skips_dots (entries : list string) (state : BootHost) :
  scan_dir entries state = scan_dir (List.filter scanned entries) state.
Proof.
  revert state. induction entries as [|d entries IH]; intros state; simpl.
  - reflexivity.
  - destruct (scanned d) eqn:Hs; simpl.
    + apply IH.
    + rewrite (scan_entry_skipped _ _ Hs). apply IH.
Qed.

Lemma last_cons {A} (a d : A) (l : list A) : List.last (a :: l) d = List.last l a.
Proof.
  revert a d. induction l as [|b l IH]; intros a d; [reflexivity|].
  change (List.last (a :: b :: l) d) with (List.last (b :: l) d).
  now rewrite !IH.
Qed.

(** After the scan [io.title_id] is the last entry other than [.] and
    [..], whether or not its [param.sfo] could be read; if there is no
    such entry it is what it was. *)
Theorem scan_dir_title_id (entries : list string) (state : BootHost) :
  title_id (io (host_rest (scan_dir entries state))) =
  List.last (List.filter scanned entries) (title_id (io (host_rest state))).
Proof.
  revert state. induction entries as [|d entries IH]; intros state; simpl.
  - reflexivity.
  - rewrite IH. destruct (scanned d) eqn:Hs.
    + rewrite last_cons. f_equal.
      unfold scan_entry. fold (scanned d). rewrite Hs.
      destruct (read_file_from_disk _ _); reflexivity.
    + now rewrite (scan_entry_skipped _ _ Hs).
Qed.

Lemma scan_dir_untouched (entries : list string) (state : BootHost) :
  let state' := scan_dir entries state in
  kernel state' = kernel state /\
  display state' = display state /\
  display_queue_aborted state' = display_queue_aborted state /\
  base_path (host_rest state') = base_path (host_rest state) /\
  pref_path (host_rest state') = pref_path (host_rest state) /\
  window (host_rest state') = window (host_rest state) /\
  glcontext (host_rest state') = glcontext (host_rest state) /\
  mem (host_rest state') = mem (host_rest state) /\
  audio (host_rest state') = audio (host_rest state) /\
  io_rest (io (host_rest state')) = io_rest (io (host_rest state)).
Proof.
  revert state. induction entries as [|d entries IH]; intros state; simpl.
  - repeat split.
  - specialize (IH (scan_entry d state)). simpl in IH.
    assert (let s1 := scan_entry d state in
            kernel s1 = kernel state /\ display s1 = display state /\
            display_queue_aborted s1 = display_queue_aborted state /\
            base_path (host_rest s1) = base_path (host_rest state) /\
            pref_path (host_rest s1) = pref_path (host_rest state) /\
            window (host_rest s1) = window (host_rest state) /\
            glcontext (host_rest s1) = glcontext (host_rest state) /\
            mem (host_rest s1) = mem (host_rest state) /\
            audio (host_rest s1) = audio (host_rest state) /\
            io_rest (io (host_rest s1)) = io_rest (io (host_rest state))) as H1.
    { unfold scan_entry. destruct (negb _ && negb _); [|repeat split].
      destruct (read_file_from_disk _ _); repeat split. }
    simpl in H1.
    destruct IH as (I1 & I2 & I3 & I4 & I5 & I6 & I7 & I8 & I9 & I10).
    destruct H1 as (J1 & J2 & J3 & J4 & J5 & J6 & J7 & J8 & J9 & J10).
    repeat split; congruence.
Qed.

(** The scan writes [io.title_id], [game_title] and the two vectors, and
    nothing else of the host. *)
Theorem scan_dir_frame (entries : list string) (state : BootHost) :
  let state' := scan_dir entries state in
  kernel state' = kernel state /\
  display state' = display state /\
  display_queue_aborted state' = display_queue_aborted state /\
  base_path (host_rest state') = base_path (host_rest state) /\
  pref_path (host_rest state') = pref_path (host_rest state) /\
  window (host_rest state') = window (host_rest state) /\
  glcontext (host_rest state') = glcontext (host_rest state) /\
  mem (host_rest state') = mem (host_rest state) /\
  audio (host_rest state') = audio (host_rest state) /\
  io_rest (io (host_rest state')) = io_rest (io (host_rest state)).
Proof. apply scan_dir_untouched. Qed.

(** Where no [param.sfo] can be read, the scan adds no game and leaves
    [game_title] alone. *)
Theorem scan_dir_unreadable (entries : list string) (state : BootHost) :
  (forall state' : BootHost,
     In (title_id (io (host_rest state'))) entries ->
     read_file_from_disk "sce_sys/param.sfo" state' = None) ->
  title_ids (host_rest (scan_dir entries state)) = title_ids (host_rest state) /\
  titles (host_rest (scan_dir entries state)) = titles (host_rest state) /\
  game_title (host_rest (scan_dir entries state)) = game_title (host_rest state).
Proof.
  revert state. induction entries as [|d entries IH]; intros state Hno; simpl.
  - repeat split.
  - assert (title_ids (host_rest (scan_entry d state)) = title_ids (host_rest state) /\
            titles (host_rest (scan_entry d state)) = titles (host_rest state) /\
            game_title (host_rest (scan_entry d state)) = game_title (host_rest state))
      as (E1 & E2 & E3).
    { unfold scan_entry. destruct (negb _ && negb _); [|repeat split].
      rewrite Hno; [repeat split|]. simpl. now left. }
    destruct (IH (scan_entry d state)) as (I1 & I2 & I3).
    { intros state' Hin. apply Hno. now right. }
    repeat split; congruence.
Qed.

(** When whether [param.sfo] can be read depends on [io.title_id] alone,
    the ids added are, in directory order, the entries other than [.]
    and [..] whose [param.sfo] is readable. *)
Theorem scan_dir_title_ids (readable : string -> bool) (entries : list string)
    (state : BootHost) :
  (forall state' : BootHost,
     match read_file_from_disk "sce_sys/param.sfo" state' with
     | Some _ => true
     | None => false
     end = readable (title_id (io (host_rest state')))) ->
  title_ids (host_rest (scan_dir entries state)) =
  title_ids (host_rest state)
    ++ List.filter (fun d_name => scanned d_name && readable d_name) entries.
Proof.
  intros Hread. revert state.
  induction entries as [|d entries IH]; intros state; simpl.
  - now rewrite app_nil_r.
  - rewrite IH. unfold scan_entry. fold (scanned d).
    destruct (scanned d) eqn:Hs; simpl; [|reflexivity].
    match goal with
    | |- context [read_file_from_disk ?p ?st] =>
        pose proof (Hread st) as Hr; simpl in Hr;
        destruct (read_file_from_disk p st)
    end; rewrite <- Hr; simpl; [now rewrite <- app_assoc | reflexivity].
Qed.

End ScanFacts.

Section InitFacts.

Context {Window GLContext Mem Audio IoRest DisplayRest Buffer SfoFile : Type}.

Local Abbreviation BootHost :=
  (@HostState Z DisplayRest (@HostFields Window GLContext Mem Audio IoRest)).
Local Abbreviation Platform := (@Platform Window GLContext Mem Audio IoRest).

Variable read_file_from_disk : string -> BootHost -> option Buffer.
Variable load_sfo : Buffer -> SfoFile.
Variable find_data : string -> SfoFile -> string -> string.
Variable set_dims : @DisplayState DisplayRest -> Z -> Z -> Z -> Z -> @DisplayState DisplayRest.
Variables DEFAULT_RES_WIDTH DEFAULT_RES_HEIGHT : Z.
Variables WINDOW_BORDER_WIDTH WINDOW_BORDER_HEIGHT : Z.

Ltac boot_run :=
  unfold init, subsystems_missing;
  cbv [mbind Boot_bind mret Boot_ret current update call return_ undefined preceded];
  cbn.

(** Split on the next answer of the environment the run depends on. *)
Ltac answer q := destruct q eqn:?; cbn.

Ltac next_answer :=
  match goal with
  | |- context [match negb ?flag with _ => _ end] => answer (negb flag)
  | |- context [match sdl_base_path ?p with _ => _ end] => answer (sdl_base_path p)
  | |- context [match sdl_pref_path ?p with _ => _ end] => answer (sdl_pref_path p)
  | |- context [match sdl_create_window ?p ?width ?height with _ => _ end] =>
      answer (sdl_create_window p width height)
  | |- context [match init_mem ?p ?m with _ => _ end] => answer (init_mem p m)
  | |- context [match init_audio ?p ?a with _ => _ end] => answer (init_audio p a)
  | |- context [match init_io ?p ?i ?pref with _ => _ end] => answer (init_io p i pref)
  | |- context [match sdl_gl_create_context ?p ?win with _ => _ end] =>
      answer (sdl_gl_create_context p win)
  | |- context [match sdl_gl_set_swap_interval ?p (-1) <? 0 with _ => _ end] =>
      answer (sdl_gl_set_swap_interval p (-1) <? 0)
  | |- context [match microprofile_enabled ?p with _ => _ end] =>
      answer (microprofile_enabled p)
  | |- context [match opendir ?p ?path with _ => _ end] => answer (opendir p path)
  end.

Ltac boot_cases := repeat next_answer.

Ltac settle_flags :=
  repeat match goal with
  | Hb : negb ?b = false |- _ => destruct b; [clear Hb | discriminate Hb]
  | Hb : negb ?b = true |- _ => destruct b; [discriminate Hb | clear Hb]
  end.

Local Abbreviation scan_dir := (scan_dir read_file_from_disk load_sfo find_data).
Local Abbreviation init :=
  (init read_file_from_disk load_sfo find_data set_dims
        DEFAULT_RES_WIDTH DEFAULT_RES_HEIGHT WINDOW_BORDER_WIDTH WINDOW_BORDER_HEIGHT).

(** [init] reports success only if both SDL paths, the window, the three
    sub-systems and the GL context were obtained and the application
    directory could be opened; the kernel's base tick is then the RTC's. *)
Theorem init_true_only_if (p : Platform) (state state' : BootHost)
    (calls : list BootCall) :
  init p state = Returned true state' calls ->
  exists base pref entries,
    sdl_base_path p = Some base /\
    sdl_pref_path p = Some pref /\
    is_Some (window (host_rest state')) /\
    fst (init_mem p (mem (host_rest state))) = true /\
    fst (init_audio p (audio (host_rest state))) = true /\
    fst (init_io p (io (host_rest state)) pref) = true /\
    is_Some (glcontext (host_rest state')) /\
    opendir p (pref ++ "ux0/app")%string = Some entries /\
    base_tick state' = rtc_base_ticks p.
Proof.
  boot_run. boot_cases; intros H; try discriminate H; injection H as <- <-;
    settle_flags;
    match goal with
    | |- context [is_Some (window (host_rest (?f ?l ?st)))] =>
        destruct (scan_dir_untouched read_file_from_disk load_sfo find_data l st)
          as (Hk & _ & _ & _ & _ & Hw & Hg & _)
    end;
    eexists _, _, _; unfold base_tick; rewrite Hk, Hw, Hg; cbn;
    repeat split; eauto;
    match goal with
    | Hio : init_io _ _ _ = _ |- _ => now rewrite Hio
    end.
Qed.

(** A failed [init] has not touched the kernel or the game list, has
    opened no directory and has registered no GL callback. *)
Theorem init_false_keeps (p : Platform) (state state' : BootHost)
    (calls : list BootCall) :
  init p state = Returned false state' calls ->
  kernel state' = kernel state /\
  game_title (host_rest state') = game_title (host_rest state) /\
  title_ids (host_rest state') = title_ids (host_rest state) /\
  titles (host_rest state') = titles (host_rest state) /\
  existsb is_open_dir calls = false /\
  ~ In CallSetAfterCallback calls.
Proof.
  boot_run. boot_cases; intros H; try discriminate H; injection H as <- <-;
    repeat split; intros Hin; cbn in Hin; intuition discriminate.
Qed.

(** The operands of the start-up condition are evaluated left to right
    and no further than needed: memory is initialised only if the window
    exists, audio only if memory succeeded, IO only if audio did too, and
    no GL call is made unless all of them succeeded.  This holds for every
    run, whatever its end. *)
Theorem init_short_circuit (p : Platform) (state : BootHost) :
  let calls := calls_of (init p state) in
  (In CallInitMem calls ->
   let size :=
     window_size (set_dims (display state) DEFAULT_RES_WIDTH DEFAULT_RES_HEIGHT
                           WINDOW_BORDER_WIDTH WINDOW_BORDER_HEIGHT) in
   is_Some (sdl_base_path p) /\ is_Some (sdl_pref_path p) /\
   is_Some (sdl_create_window p (fst size) (snd size))) /\
  (In CallInitAudio calls ->
   In CallInitMem calls /\ fst (init_mem p (mem (host_rest state))) = true) /\
  (forall pref, In (CallInitIo pref) calls ->
   In CallInitAudio calls /\ sdl_pref_path p = Some pref /\
   fst (init_audio p (audio (host_rest state))) = true) /\
  (existsb is_gl_call calls = true ->
   exists pref, In (CallInitIo pref) calls /\
     fst (init_io p (io (host_rest state)) pref) = true).
Proof.
  boot_run. boot_cases; settle_flags;
    (split; [|split; [|split]]);
    try (intros Hin; cbn in Hin; exfalso; intuition discriminate);
    try (intros pref Hin; cbn in Hin; exfalso; intuition discriminate).
  all: try solve [intros _; cbn; eauto].
  all: try solve [intros _; split; [cbn; tauto|reflexivity]].
  all: try solve [intros pref Hin; cbn in Hin;
                  assert (pref = s0) as -> by (intuition congruence);
                  split; [cbn; tauto|]; split; reflexivity].
  all: try solve [intros _; eexists; split;
                  [cbn; right; right; right; right; right; left; reflexivity|];
                  match goal with
                  | Hio : init_io _ _ _ = _ |- _ => now rewrite Hio
                  end].
Qed.

(** If [init] fails after asking for a GL context, the context is null,
    the window is kept, the last thing done was to log the error, and
    neither the swap interval nor a callback was set. *)
Theorem init_context_failure (p : Platform) (state state' : BootHost)
    (calls : list BootCall) :
  init p state = Returned false state' calls ->
  In CallGLCreateContext calls ->
  glcontext (host_rest state') = None /\
  is_Some (window (host_rest state')) /\
  List.last calls CallGetBasePath = CallLogError "Could not create OpenGL context." /\
  (forall interval, ~ In (CallGLSetSwapInterval interval) calls) /\
  ~ In CallSetAfterCallback calls.
Proof.
  boot_run. boot_cases; intros H; try discriminate H; injection H as <- <-;
    intros Hctx; try (exfalso; cbn in Hctx; intuition discriminate);
    cbn; (split; [reflexivity|]); (split; [eauto|]); (split; [reflexivity|]);
    split; [intros interval Hin|intros Hin]; intuition discriminate.
Qed.

(** On a successful start adaptive vsync is always tried, and regular
    vsync is set exactly when the adaptive request was refused. *)
Theorem init_vsync_fallback (p : Platform) (state state' : BootHost)
    (calls : list BootCall) :
  init p state = Returned true state' calls ->
  In (CallGLSetSwapInterval (-1)) calls /\
  (In (CallGLSetSwapInterval 1) calls <-> sdl_gl_set_swap_interval p (-1) < 0).
Proof.
  boot_run. boot_cases; intros H; try discriminate H; injection H as <- <-;
    (split; [cbn; tauto|]);
    match goal with
    | Hs : (_ <? 0) = true |- _ => apply Z.ltb_lt in Hs
    | Hs : (_ <? 0) = false |- _ => apply Z.ltb_ge in Hs
    end;
    (split; [intros Hin; cbn in Hin|intros Hlt; cbn]);
    try lia; try tauto; exfalso; intuition discriminate.
Qed.

(** If SDL has no base path or no preference path to give, [init] assigns
    a null pointer to a string: it leaves defined behaviour before the
    state is touched. *)
Theorem init_null_path (p : Platform) (state : BootHost) :
  sdl_base_path p = None \/ sdl_pref_path p = None ->
  init p state = Undefined [CallGetBasePath; CallGetPrefPath].
Proof.
  intros [H|H]; boot_run; rewrite H; [reflexivity|].
  destruct (sdl_base_path p); reflexivity.
Qed.

(** What [opendir] returns is handed to [readdir] unchecked: once [init]
    has come to open the application directory, a directory that cannot
    be opened ends the run in undefined behaviour, with neither true nor
    false returned. *)
Theorem init_opendir_unchecked (p : Platform) (state : BootHost) (path : string) :
  In (CallOpenDir path) (calls_of (init p state)) ->
  opendir p path = None ->
  init p state = Undefined (calls_of (init p state)) /\
  List.last (calls_of (init p state)) CallGetBasePath = CallOpenDir path.
Proof.
  boot_run. boot_cases; intros Hin Hnone; cbn in Hin;
    try (exfalso; intuition discriminate).
  all: try (split; reflexivity).
  all: try (assert (path = (s0 ++ "ux0/app")%string) as -> by (intuition congruence);
            split; reflexivity).
  all: exfalso;
    assert (path = (s0 ++ "ux0/app")%string) as -> by (intuition congruence);
    congruence.
Qed.

(** On success the state returned is the scan of the application
    directory, [<pref_path>ux0/app], started from a state with the game
    list and [game_title] as [init] found them. *)
Theorem init_success_games (p : Platform) (state state' : BootHost)
    (calls : list BootCall) :
  init p state = Returned true state' calls ->
  exists pref entries state0,
    sdl_pref_path p = Some pref /\
    opendir p (pref ++ "ux0/app")%string = Some entries /\
    state' = scan_dir entries state0 /\
    pref_path (host_rest state') = pref /\
    game_title (host_rest state0) = game_title (host_rest state) /\
    title_ids (host_rest state0) = title_ids (host_rest state) /\
    titles (host_rest state0) = titles (host_rest state).
Proof.
  boot_run. boot_cases; intros H; try discriminate H; injection H as <- <-;
    eexists _, _, _; (split; [reflexivity|]); (split; [eassumption|]);
    (split; [reflexivity|]);
    match goal with
    | |- pref_path (host_rest (?f ?l ?st)) = _ /\ _ =>
        destruct (scan_dir_untouched read_file_from_disk load_sfo find_data l st)
          as (_ & _ & _ & _ & Hp & _)
    end;
    rewrite Hp; repeat split.
Qed.

End InitFacts.

(** * The GL error hook *)

(** Without assertions, [after_callback] logs every error [glGetError]
    reports up to its first [GL_NO_ERROR], in order and once each, uses up
    exactly those answers and that [GL_NO_ERROR], and returns. *)
Theorem after_callback_drains (function_name : string) (errors rest : list Z) :
  Forall (fun error => error <> GL_NO_ERROR) errors ->
  after_callback false function_name (errors ++ GL_NO_ERROR :: rest) =
  HookReturned rest (MicroProfileLeave :: map (LogGLError function_name) errors).
Proof.
  intros Herr. unfold after_callback.
  assert (drain_gl_errors false function_name (errors ++ GL_NO_ERROR :: rest) =
          HookReturned rest (map (LogGLError function_name) errors)) as ->;
    [|reflexivity].
  induction Herr as [|error errors Hne _ IH]; simpl.
  - reflexivity.
  - destruct (Z.eqb_spec error GL_NO_ERROR) as [|_]; [contradiction|].
    now rewrite IH.
Qed.

(** With assertions, [after_callback] stops at the first error: it
    returns silently when the first answer of [glGetError] is
    [GL_NO_ERROR], and otherwise logs that one error and fails the
    assertion, leaving later errors unread. *)
Theorem after_callback_asserts (function_name : string) (results : list Z) :
  match after_callback true function_name results with
  | HookReturned unread effects =>
      List.hd GL_NO_ERROR results = GL_NO_ERROR /\
      unread = List.tl results /\
      effects = [MicroProfileLeave]
  | AssertionFailed unread effects =>
      List.hd GL_NO_ERROR results <> GL_NO_ERROR /\
      unread = List.tl results /\
      effects = [MicroProfileLeave;
                 LogGLError function_name (List.hd GL_NO_ERROR results)]
  end.
Proof.
  unfold after_callback. destruct results as [|error rest]; simpl.
  - repeat split.
  - destruct (Z.eqb_spec error GL_NO_ERROR); simpl; repeat split; assumption.
Qed.

(** * The further properties on the sample machines *)

Lemma resolve_import_some_iff_witness :
  resolve_import sample_nids 0xDEAD0001 = Some bump_counter <->
  In (0xDEAD0001, bump_counter) sample_nids.
Proof.
  apply (resolve_import_some_iff sample_nids 0xDEAD0001 bump_counter).
  simpl. constructor; [intros []|constructor].
Defined.

Lemma call_import_lle_ignores_cpu_witness :
  call_import sample_nids sample_import_name 7 0x1234 1
    (sample_world {[ 0x1234 := 0x81000000 ]} ThreadToDo.run []) =
  call_import sample_nids sample_import_name 99 0x1234 1
    (sample_world {[ 0x1234 := 0x81000000 ]} ThreadToDo.run []).
Proof.
  apply (call_import_lle_ignores_cpu sample_nids sample_import_name
           (sample_world {[ 0x1234 := 0x81000000 ]} ThreadToDo.run []) 7 99 0x1234 1).
  vm_compute. discriminate.
Defined.

Lemma call_import_lle_unknown_thread_witness :
  call_import sample_nids sample_import_name 7 0x1234 5
    (sample_world {[ 0x1234 := 0x81000000 ]} ThreadToDo.run []) =
  Crash (UnknownThreadId 5) [EvFindExport 0x1234; EvLock KernelMutex].
Proof.
  apply (call_import_lle_unknown_thread sample_nids sample_import_name
           (sample_world {[ 0x1234 := 0x81000000 ]} ThreadToDo.run []) 7 0x1234 5).
  - vm_compute. discriminate.
  - reflexivity.
Defined.

Lemma call_import_lle_twice_witness :
  exists w1 tr,
    call_import sample_nids sample_import_name 7 0x1234 1
      (sample_world {[ 0x1234 := 0x81000000 ]} ThreadToDo.run []) = Done tt w1 tr /\
    call_import sample_nids sample_import_name 7 0x1234 1 w1 = Done tt w1 tr.
Proof.
  apply (call_import_lle_twice sample_nids sample_import_name
           (sample_world {[ 0x1234 := 0x81000000 ]} ThreadToDo.run [])
           7 0x1234 1 0x81000000 (mkThread 7 ThreadToDo.run) (mkCPU 0x80000000 tt));
    [reflexivity | lia | reflexivity | reflexivity].
Defined.

Lemma call_import_lle_locks_witness :
  let tr := trace_of (call_import sample_nids sample_import_name 7 0x1234 1
                        (sample_world {[ 0x1234 := 0x81000000 ]} ThreadToDo.run [])) in
  max_held [] tr = 1%nat /\ held_after [] tr = [].
Proof.
  apply (call_import_lle_locks sample_nids sample_import_name
           (sample_world {[ 0x1234 := 0x81000000 ]} ThreadToDo.run [])
           7 0x1234 1 0x81000000 (mkThread 7 ThreadToDo.run) (mkCPU 0x80000000 tt));
    [reflexivity | lia | reflexivity | reflexivity].
Defined.

Lemma resume_thread_frame_witness :
  exists w' tr,
    resume_thread 1 (sample_world {[ 0x1234 := 0x81000000 ]} ThreadToDo.wait []) =
      Done tt w' tr /\
    threads (kernel (host w')) !! 1 = Some (mkThread 7 ThreadToDo.run) /\
    (to_do <$> threads (kernel (host w')) !! 1) <> Some ThreadToDo.wait /\
    (forall other, other <> 1 ->
       threads (kernel (host w')) !! other =
       threads (kernel (host (sample_world {[ 0x1234 := 0x81000000 ]}
                                ThreadToDo.wait []))) !! other) /\
    export_nids (kernel (host w')) = {[ 0x1234 := 0x81000000 ]} /\
    kernel_rest (kernel (host w')) = tt /\
    display (host w') = mkDisplay false false (960, 544) tt /\
    host_rest (host w') = 0 /\
    cpus w' = {[ 7 := mkCPU 0x80000000 tt ]} /\
    sdl_events w' = [].
Proof.
  refine (resume_thread_frame
            (sample_world {[ 0x1234 := 0x81000000 ]} ThreadToDo.wait []) 1
            (mkThread 7 ThreadToDo.wait) _).
  reflexivity.
Defined.

Lemma resume_thread_locks_and_notifies_witness :
  let tr := trace_of (resume_thread 1 (sample_world ∅ ThreadToDo.stop [])) in
  List.filter is_notify_all tr = [EvNotifyAll (SomethingToDo 1)] /\
  max_held [] tr = 1%nat /\
  held_after [] tr = [].
Proof.
  apply (resume_thread_locks_and_notifies (sample_world ∅ ThreadToDo.stop []) 1
           (mkThread 7 ThreadToDo.stop)).
  reflexivity.
Defined.

Lemma resume_thread_twice_witness :
  exists w1 tr1 tr2,
    resume_thread 1 (sample_world ∅ ThreadToDo.wait []) = Done tt w1 tr1 /\
    resume_thread 1 w1 = Done tt w1 tr2.
Proof.
  apply (resume_thread_twice (sample_world ∅ ThreadToDo.wait []) 1
           (mkThread 7 ThreadToDo.wait)).
  reflexivity.
Defined.

Lemma handle_events_without_quit_witness :
  exists w' tr,
    handle_events sample_set_dims 960 544 0 34
      (sample_world ∅ ThreadToDo.wait [mkEvent SDL_KEYDOWN SDLK_g; mkEvent 0x400 0])
      = Done true w' tr /\
    sdl_events w' = [] /\
    kernel (host w') = mkKernel ∅ {[ 1 := mkThread 7 ThreadToDo.wait ]} tt /\
    cpus w' = {[ 7 := mkCPU 0x80000000 tt ]} /\
    display_queue_aborted (host w') = false /\
    host_rest (host w') = 0 /\
    List.filter is_imgui tr =
      [EvImGuiProcess (mkEvent SDL_KEYDOWN SDLK_g); EvImGuiProcess (mkEvent 0x400 0)] /\
    existsb is_notify_all tr = false /\
    existsb is_lock tr = false.
Proof.
  refine (handle_events_without_quit sample_set_dims 960 544 0 34
            (sample_world ∅ ThreadToDo.wait
               [mkEvent SDL_KEYDOWN SDLK_g; mkEvent 0x400 0]) _).
  repeat constructor; unfold not_quit; vm_compute; discriminate.
Defined.

Lemma handle_events_plain_witness :
  handle_events sample_set_dims 960 544 0 34
    (sample_world ∅ ThreadToDo.run [mkEvent 0x400 0; mkEvent SDL_KEYDOWN 97]) =
  Done true (sample_world ∅ ThreadToDo.run [])
    [EvImGuiProcess (mkEvent 0x400 0); EvImGuiProcess (mkEvent SDL_KEYDOWN 97)].
Proof.
  refine (handle_events_plain sample_set_dims 960 544 0 34
            (sample_world ∅ ThreadToDo.run [mkEvent 0x400 0; mkEvent SDL_KEYDOWN 97]) _).
  repeat constructor; vm_compute; discriminate.
Defined.

Lemma handle_events_quit_leaves_rest_witness :
  exists w' tr,
    handle_events sample_set_dims 960 544 0 34
      (sample_world ∅ ThreadToDo.wait sample_queue) = Done false w' tr /\
    sdl_events w' = [mkEvent 0x400 0] /\
    List.filter is_imgui tr =
      [EvImGuiProcess (mkEvent SDL_KEYDOWN SDLK_g); EvImGuiProcess (mkEvent SDL_QUIT 0)] /\
    display_queue_aborted (host w') = true.
Proof.
  refine (handle_events_quit_leaves_rest sample_set_dims 960 544 0 34
            (sample_world ∅ ThreadToDo.wait sample_queue)
            [mkEvent SDL_KEYDOWN SDLK_g] (mkEvent SDL_QUIT 0) [mkEvent 0x400 0] _ _ _).
  - reflexivity.
  - repeat constructor; unfold not_quit; vm_compute; discriminate.
  - reflexivity.
Defined.

Lemma handle_events_toggle_parity_witness :
  exists w' tr,
    handle_events sample_set_dims 960 544 0 34
      (sample_world ∅ ThreadToDo.run
         [mkEvent SDL_KEYDOWN SDLK_g; mkEvent 0x400 0; mkEvent SDL_KEYDOWN SDLK_g;
          mkEvent SDL_KEYDOWN SDLK_g]) = Done true w' tr /\
    imgui_render (display (host w')) = true.
Proof.
  refine (handle_events_toggle_parity sample_set_dims 960 544 0 34
            (sample_world ∅ ThreadToDo.run
               [mkEvent SDL_KEYDOWN SDLK_g; mkEvent 0x400 0; mkEvent SDL_KEYDOWN SDLK_g;
                mkEvent SDL_KEYDOWN SDLK_g]) _ _).
  - reflexivity.
  - repeat constructor; unfold not_quit; vm_compute; discriminate.
Defined.

Lemma scan_dir_unreadable_witness :
  title_ids (host_rest (scan_dir sample_read_file sample_load_sfo sample_find_data
                          ["."; "EMPTY"; "SAVES"]%string sample_boot_state)) = [] /\
  titles (host_rest (scan_dir sample_read_file sample_load_sfo sample_find_data
                       ["."; "EMPTY"; "SAVES"]%string sample_boot_state)) = [] /\
  game_title (host_rest (scan_dir sample_read_file sample_load_sfo sample_find_data
                           ["."; "EMPTY"; "SAVES"]%string sample_boot_state)) = ""%string.
Proof.
  refine (scan_dir_unreadable sample_read_file sample_load_sfo sample_find_data
            ["."; "EMPTY"; "SAVES"]%string sample_boot_state _).
  intros state' Hin. unfold sample_read_file. simpl in Hin.
  destruct Hin as [<-|[<-|[<-|[]]]]; reflexivity.
Defined.

Lemma scan_dir_title_ids_witness :
  title_ids (host_rest (scan_dir sample_read_file sample_load_sfo sample_find_data
                          sample_listing sample_boot_state)) =
  [] ++ List.filter (fun d_name => scanned d_name && sample_readable d_name) sample_listing.
Proof.
  refine (scan_dir_title_ids sample_read_file sample_load_sfo sample_find_data
            sample_readable sample_listing sample_boot_state _).
  intros state'. unfold sample_read_file, sample_readable. simpl.
  destruct (title_id (io (host_rest state')) =? "PCSE00001")%string; reflexivity.
Defined.

Example sample_scan :
  let state' := scan_dir sample_read_file sample_load_sfo sample_find_data
                         sample_listing sample_boot_state in
  title_ids (host_rest state') = ["PCSE00001"%string] /\
  titles (host_rest state') = ["Game One"%string] /\
  title_id (io (host_rest state')) = "EMPTY"%string.
Proof. vm_compute. repeat split. Qed.

Lemma init_true_only_if_witness :
  exists base pref entries,
    sdl_base_path sample_good = Some base /\
    sdl_pref_path sample_good = Some pref /\
    is_Some (window (host_rest (final_state (sample_init sample_good)))) /\
    fst (init_mem sample_good (mem (host_rest sample_boot_state))) = true /\
    fst (init_audio sample_good (audio (host_rest sample_boot_state))) = true /\
    fst (init_io sample_good (io (host_rest sample_boot_state)) pref) = true /\
    is_Some (glcontext (host_rest (final_state (sample_init sample_good)))) /\
    opendir sample_good (pref ++ "ux0/app")%string = Some entries /\
    base_tick (final_state (sample_init sample_good)) = rtc_base_ticks sample_good.
Proof.
  refine (init_true_only_if sample_read_file sample_load_sfo sample_find_data
            sample_set_dims 960 544 0 34 sample_good sample_boot_state
            (final_state (sample_init sample_good))
            (calls_of (sample_init sample_good)) _).
  vm_compute. reflexivity.
Defined.

Lemma init_false_keeps_witness :
  kernel (final_state (sample_init sample_no_context)) = kernel sample_boot_state /\
  game_title (host_rest (final_state (sample_init sample_no_context))) = ""%string /\
  title_ids (host_rest (final_state (sample_init sample_no_context))) = [] /\
  titles (host_rest (final_state (sample_init sample_no_context))) = [] /\
  existsb is_open_dir (calls_of (sample_init sample_no_context)) = false /\
  ~ In CallSetAfterCallback (calls_of (sample_init sample_no_context)).
Proof.
  refine (init_false_keeps sample_read_file sample_load_sfo sample_find_data
            sample_set_dims 960 544 0 34 sample_no_context sample_boot_state
            (final_state (sample_init sample_no_context))
            (calls_of (sample_init sample_no_context)) _).
  vm_compute. reflexivity.
Defined.

Lemma init_short_circuit_witness :
  ~ In CallInitAudio (calls_of (sample_init sample_no_mem)) /\
  existsb is_gl_call (calls_of (sample_init sample_no_mem)) = false /\
  (exists pref,
     In (CallInitIo pref) (calls_of (sample_init sample_good)) /\
     fst (init_io sample_good (io (host_rest sample_boot_state)) pref) = true).
Proof.
  pose proof (init_short_circuit sample_read_file sample_load_sfo sample_find_data
                sample_set_dims 960 544 0 34 sample_no_mem sample_boot_state)
    as (_ & Haudio & _ & Hgl).
  pose proof (init_short_circuit sample_read_file sample_load_sfo sample_find_data
                sample_set_dims 960 544 0 34 sample_good sample_boot_state)
    as (_ & _ & _ & Hgood).
  split; [|split].
  - intros Hin. destruct (Haudio Hin) as [_ Hmem]. vm_compute in Hmem. discriminate Hmem.
  - destruct (existsb is_gl_call (calls_of (sample_init sample_no_mem))) eqn:Hcalls;
      [|reflexivity].
    vm_compute in Hcalls. discriminate Hcalls.
  - apply Hgood. vm_compute. reflexivity.
Defined.

Lemma init_context_failure_witness :
  glcontext (host_rest (final_state (sample_init sample_no_context))) = None /\
  is_Some (window (host_rest (final_state (sample_init sample_no_context)))) /\
  List.last (calls_of (sample_init sample_no_context)) CallGetBasePath =
    CallLogError "Could not create OpenGL context." /\
  (forall interval,
     ~ In (CallGLSetSwapInterval interval) (calls_of (sample_init sample_no_context))) /\
  ~ In CallSetAfterCallback (calls_of (sample_init sample_no_context)).
Proof.
  refine (init_context_failure sample_read_file sample_load_sfo sample_find_data
            sample_set_dims 960 544 0 34 sample_no_context sample_boot_state
            (final_state (sample_init sample_no_context))
            (calls_of (sample_init sample_no_context)) _ _).
  - vm_compute. reflexivity.
  - vm_compute. tauto.
Defined.

Lemma init_vsync_fallback_witness :
  In (CallGLSetSwapInterval (-1)) (calls_of (sample_init sample_good)) /\
  (In (CallGLSetSwapInterval 1) (calls_of (sample_init sample_good)) <->
   sdl_gl_set_swap_interval sample_good (-1) < 0).
Proof.
  refine (init_vsync_fallback sample_read_file sample_load_sfo sample_find_data
            sample_set_dims 960 544 0 34 sample_good sample_boot_state
            (final_state (sample_init sample_good))
            (calls_of (sample_init sample_good)) _).
  vm_compute. reflexivity.
Defined.

Lemma init_null_path_witness :
  sample_init sample_no_paths = Undefined [CallGetBasePath; CallGetPrefPath].
Proof.
  refine (init_null_path sample_read_file sample_load_sfo sample_find_data
            sample_set_dims 960 544 0 34 sample_no_paths sample_boot_state _).
  left. reflexivity.
Defined.

Lemma init_opendir_unchecked_witness :
  sample_init sample_no_dir = Undefined (calls_of (sample_init sample_no_dir)) /\
  List.last (calls_of (sample_init sample_no_dir)) CallGetBasePath =
    CallOpenDir "/home/user/.vita3k/ux0/app".
Proof.
  refine (init_opendir_unchecked sample_read_file sample_load_sfo sample_find_data
            sample_set_dims 960 544 0 34 sample_no_dir sample_boot_state
            "/home/user/.vita3k/ux0/app" _ _).
  - vm_compute. tauto.
  - reflexivity.
Defined.

Lemma init_success_games_witness :
  exists pref entries state0,
    sdl_pref_path sample_good = Some pref /\
    opendir sample_good (pref ++ "ux0/app")%string = Some entries /\
    final_state (sample_init sample_good) =
      scan_dir sample_read_file sample_load_sfo sample_find_data entries state0 /\
    pref_path (host_rest (final_state (sample_init sample_good))) = pref /\
    game_title (host_rest state0) = ""%string /\
    title_ids (host_rest state0) = [] /\
    titles (host_rest state0) = [].
Proof.
  refine (init_success_games sample_read_file sample_load_sfo sample_find_data
            sample_set_dims 960 544 0 34 sample_good sample_boot_state
            (final_state (sample_init sample_good))
            (calls_of (sample_init sample_good)) _).
  vm_compute. reflexivity.
Defined.

Example sample_boot :
  sample_init sample_no_mem =
  Returned false
    (mkHost (mkKernel ∅ ∅ 0) (mkDisplay false false (960, 578) tt) false
       (mkFields "/opt/vita3k/" "/home/user/.vita3k/" (Some 1) None true false
                 (mkIO "" tt) "" [] []))
    [CallGetBasePath; CallGetPrefPath; CallCreateWindow 960 578; CallInitMem].
Proof. vm_compute. reflexivity. Qed.

Lemma after_callback_drains_witness :
  after_callback false "glDrawArrays" [0x500; 0x502; 0; 0x501] =
  HookReturned [0x501]
    [MicroProfileLeave; LogGLError "glDrawArrays" 0x500; LogGLError "glDrawArrays" 0x502].
Proof.
  refine (after_callback_drains "glDrawArrays" [0x500; 0x502] [0x501] _).
  repeat constructor; vm_compute; discriminate.
Defined.
